(** * Spoolman (resin / bottle variant): database helpers and v1 endpoints

    A shallow embedding of
      - [spoolman/database/bottle.py]
      - [spoolman/database/resin.py]
      - [spoolman/api/v1/bottle.py]
      - [spoolman/api/v1/resin.py]
    and the properties of the specification that concern them.

    Conventions of the embedding.
      - Python [float] weights are exact rationals ([Q]); rounding, infinities
        and NaN are outside the model.  Equality of weights is [Qeq] ([==]).
      - A [datetime] is its UTC instant in seconds.
      - The SQLAlchemy session is a working copy of the store: statements and
        attribute writes change the working copy, [commit] checks the
        integrity constraints and publishes it, [rollback] discards it.
      - A request is a computation in the monad [M] (state of the world plus
        exceptions) that runs to completion in a session of its own.  Calls
        that run at the same time are scripts of round trips to the store,
        interleaved by a schedule; what is proved of them does not depend on
        the order in which weights are added. *)

From Stdlib Require Import ZArith QArith Qminmax Lqa Lia List String Ascii.
From Stdlib Require Import Permutation Bool DecimalString DecimalPos DecimalZ.
From stdpp Require Import base gmap sets list strings sorting.

#[local] Open Scope Z_scope.

(** ** Python values and helpers *)

Definition datetime := Z.

(** [utc_timezone_naive]: convert to UTC and drop the zone; on instants this
    is the identity. *)
Definition utc_timezone_naive (dt : datetime) : datetime := dt.

(** Python's two-argument [max]: the first argument is kept unless the second
    is strictly greater. *)
Definition py_max (a b : Q) : Q := if Qle_bool b a then a else b.

(** Python's [str] on an [int]. *)
Definition str (n : Z) : string := NilZero.string_of_int (Z.to_int n).

Inductive PyVal :=
| VNone
| VInt (z : Z)
| VFloat (q : Q)
| VStr (s : string)
| VObj (name : string).

Definition as_str (v : PyVal) : option string :=
  match v with VStr s => Some s | _ => None end.
Definition as_int (v : PyVal) : option Z :=
  match v with VInt z => Some z | _ => None end.
Definition as_float (v : PyVal) : option Q :=
  match v with VFloat q => Some q | VInt z => Some (inject_Z z) | _ => None end.

Definition of_opt {A} (f : A → PyVal) (o : option A) : PyVal :=
  match o with Some a => f a | None => VNone end.

(** ** Data model (the rows of [spoolman.database.models]) *)

Record VendorRow := {
  v_id : Z;
  v_name : string
}.

Record ResinRow := {
  r_id : Z;
  r_registered : datetime;
  r_name : option string;
  r_vendor_id : option Z;
  r_material : option string;
  r_price : option Q;
  r_density : Q;
  r_diameter : Q;
  r_weight : option Q;
  r_bottle_weight : option Q;
  r_article_number : option string;
  r_comment : option string;
  r_cure_temp : option Z;
  r_cure_time : option Z;
  r_wash_time : option Z;
  r_color_hex : option string
}.

(** [b_used_weight] is an [option] because an attribute of a loaded object can
    hold [None] until the flush; the column itself refuses NULL (see
    [integrity_ok]). *)
Record BottleRow := {
  b_id : Z;
  b_registered : datetime;
  b_resin_id : Z;
  b_used_weight : option Q;
  b_first_used : option datetime;
  b_last_used : option datetime;
  b_location : option string;
  b_lot_nr : option string;
  b_comment : option string;
  b_archived : option bool
}.

Record Store := {
  vendors : gmap Z VendorRow;
  resins : gmap Z ResinRow;
  bottles : gmap Z BottleRow
}.

Definition set_resins (f : gmap Z ResinRow → gmap Z ResinRow) (s : Store) : Store :=
  {| vendors := vendors s; resins := f (resins s); bottles := bottles s |}.
Definition set_bottles (f : gmap Z BottleRow → gmap Z BottleRow) (s : Store) : Store :=
  {| vendors := vendors s; resins := resins s; bottles := f (bottles s) |}.

Definition with_used_weight (u : option Q) (b : BottleRow) : BottleRow :=
  {| b_id := b_id b; b_registered := b_registered b; b_resin_id := b_resin_id b;
     b_used_weight := u; b_first_used := b_first_used b; b_last_used := b_last_used b;
     b_location := b_location b; b_lot_nr := b_lot_nr b; b_comment := b_comment b;
     b_archived := b_archived b |}.
Definition with_resin_id (r : Z) (b : BottleRow) : BottleRow :=
  {| b_id := b_id b; b_registered := b_registered b; b_resin_id := r;
     b_used_weight := b_used_weight b; b_first_used := b_first_used b;
     b_last_used := b_last_used b; b_location := b_location b; b_lot_nr := b_lot_nr b;
     b_comment := b_comment b; b_archived := b_archived b |}.
Definition with_first_used (t : option datetime) (b : BottleRow) : BottleRow :=
  {| b_id := b_id b; b_registered := b_registered b; b_resin_id := b_resin_id b;
     b_used_weight := b_used_weight b; b_first_used := t; b_last_used := b_last_used b;
     b_location := b_location b; b_lot_nr := b_lot_nr b; b_comment := b_comment b;
     b_archived := b_archived b |}.
Definition with_last_used (t : option datetime) (b : BottleRow) : BottleRow :=
  {| b_id := b_id b; b_registered := b_registered b; b_resin_id := b_resin_id b;
     b_used_weight := b_used_weight b; b_first_used := b_first_used b; b_last_used := t;
     b_location := b_location b; b_lot_nr := b_lot_nr b; b_comment := b_comment b;
     b_archived := b_archived b |}.
Definition with_location (x : option string) (b : BottleRow) : BottleRow :=
  {| b_id := b_id b; b_registered := b_registered b; b_resin_id := b_resin_id b;
     b_used_weight := b_used_weight b; b_first_used := b_first_used b;
     b_last_used := b_last_used b; b_location := x; b_lot_nr := b_lot_nr b;
     b_comment := b_comment b; b_archived := b_archived b |}.
Definition with_lot_nr (x : option string) (b : BottleRow) : BottleRow :=
  {| b_id := b_id b; b_registered := b_registered b; b_resin_id := b_resin_id b;
     b_used_weight := b_used_weight b; b_first_used := b_first_used b;
     b_last_used := b_last_used b; b_location := b_location b; b_lot_nr := x;
     b_comment := b_comment b; b_archived := b_archived b |}.
Definition with_comment (x : option string) (b : BottleRow) : BottleRow :=
  {| b_id := b_id b; b_registered := b_registered b; b_resin_id := b_resin_id b;
     b_used_weight := b_used_weight b; b_first_used := b_first_used b;
     b_last_used := b_last_used b; b_location := b_location b; b_lot_nr := b_lot_nr b;
     b_comment := x; b_archived := b_archived b |}.
Definition with_archived (x : option bool) (b : BottleRow) : BottleRow :=
  {| b_id := b_id b; b_registered := b_registered b; b_resin_id := b_resin_id b;
     b_used_weight := b_used_weight b; b_first_used := b_first_used b;
     b_last_used := b_last_used b; b_location := b_location b; b_lot_nr := b_lot_nr b;
     b_comment := b_comment b; b_archived := x |}.

(** The next value of an auto-increment key. *)
Definition fresh_id {V} (m : gmap Z V) : Z :=
  Z.succ (fold_right Z.max 0 (map_to_list m).*1).

(** Modelled from the spec: the column declarations of
    [spoolman.database.models] are not among the sources.  The data model gives
    a Container a reference to its Material Type and a used-quantity that is
    not optional, a Material Type an optional reference to a Vendor, and
    requires that a referenced Material Type or Vendor cannot be removed. *)
Definition integrity_ok (s : Store) : bool :=
  forallb (λ b, bool_decide (is_Some (resins s !! b_resin_id b))
                && bool_decide (is_Some (b_used_weight b)))
          (map_to_list (bottles s)).*2
  && forallb (λ r, match r_vendor_id r with
                   | Some v => bool_decide (is_Some (vendors s !! v))
                   | None => true
                   end)
             (map_to_list (resins s)).*2.

(** ** Change events *)

Inductive EventType := ADDED | UPDATED | DELETED.

Inductive Payload :=
| PBottle (b : BottleRow)
| PResin (r : ResinRow).

Record Event := {
  ev_type : EventType;
  ev_resource : string;
  ev_date : datetime;
  ev_payload : Payload
}.

(** What the server writes to a websocket: the liveness acknowledgment
    [{"status": "healthy"}] or a change event. *)
Inductive Frame :=
| Healthy
| Push (evt : Event).

(** ** The notification broker ([spoolman.ws.websocket_manager]) *)

Module Ws.

Definition Conn := positive.

(** Modelled from the spec: [spoolman/ws.py] is not among the sources.  The
    broker keeps a mapping from topic to the set of registered connections;
    [connect] registers, [disconnect] removes and is a no-op on a connection
    that is not registered, and [send] delivers to every connection
    registered under the topic or under a prefix of it. *)
Definition connect (pool : list string) (c : Conn)
    (m : gmap (list string) (gset Conn)) : gmap (list string) (gset Conn) :=
  <[pool := {[c]} ∪ default ∅ (m !! pool)]> m.

Definition disconnect (pool : list string) (c : Conn)
    (m : gmap (list string) (gset Conn)) : gmap (list string) (gset Conn) :=
  match m !! pool with
  | Some s => <[pool := s ∖ {[c]}]> m
  | None => m
  end.

Definition subpools (pool : list string) : list (list string) :=
  (λ n, take n pool) <$> seq 0 (S (length pool)).

Definition receivers (pool : list string)
    (m : gmap (list string) (gset Conn)) : list Conn :=
  subpools pool ≫= λ sub, elements (default ∅ (m !! sub)).

Definition send (pool : list string) (evt : Event)
    (m : gmap (list string) (gset Conn)) : list (Conn * Frame) :=
  (λ c, (c, Push evt)) <$> receivers pool m.

End Ws.

(** ** The world a request runs in *)

Record World := {
  committed : Store;                          (* what other sessions can read *)
  session : Store;                            (* this request's working copy *)
  now : datetime;                             (* datetime.utcnow() *)
  connections : gmap (list string) (gset Ws.Conn);
  published : list (list string * Event);     (* calls of websocket_manager.send *)
  outbox : list (Ws.Conn * Frame)             (* frames written to connections *)
}.

Definition set_session (f : Store → Store) (w : World) : World :=
  {| committed := committed w; session := f (session w); now := now w;
     connections := connections w; published := published w; outbox := outbox w |}.

Definition set_connections
    (f : gmap (list string) (gset Ws.Conn) → gmap (list string) (gset Ws.Conn))
    (w : World) : World :=
  {| committed := committed w; session := session w; now := now w;
     connections := f (connections w); published := published w;
     outbox := outbox w |}.

(** ** Exceptions and the monad of coroutines *)

Inductive exn :=
| ItemNotFoundError (msg : string)
| ItemCreateError (msg : string)
| ItemDeleteError (msg : string)
| IntegrityError
| NameError (name : string)
| AttributeError (name : string)
| TypeError (msg : string)
| ValueError (msg : string)
| RequestValidationError (msg : string).

Inductive res (A : Type) :=
| Ok (a : A)
| Raise (e : exn).
Arguments Ok {A} a.
Arguments Raise {A} e.

Definition M (A : Type) : Type := World → res A * World.

Definition ret {A} (a : A) : M A := λ w, (Ok a, w).
Definition raise {A} (e : exn) : M A := λ w, (Raise e, w).
Definition bind {A B} (m : M A) (k : A → M B) : M B :=
  λ w, match m w with
       | (Ok a, w') => k a w'
       | (Raise e, w') => (Raise e, w')
       end.
Definition lift {A} (r : res A) : M A := λ w, (r, w).

(** [try: body except IntegrityError: handler] *)
Definition try_except_IntegrityError {A} (body handler : M A) : M A :=
  λ w, match body w with
       | (Raise IntegrityError, w') => handler w'
       | r => r
       end.

(** [try: body except ItemCreateError: handler] *)
Definition try_except_ItemCreateError {A} (body handler : M A) : M A :=
  λ w, match body w with
       | (Raise (ItemCreateError _), w') => handler w'
       | r => r
       end.

(** [try: body except ItemDeleteError: handler] *)
Definition try_except_ItemDeleteError {A} (body handler : M A) : M A :=
  λ w, match body w with
       | (Raise (ItemDeleteError _), w') => handler w'
       | r => r
       end.

Declare Scope coro_scope.
Delimit Scope coro_scope with coro.
Notation "'do' x <- m ; k" := (bind m (λ x, k))
  (at level 10, x name, m at level 100, k at level 200) : coro_scope.
Notation "'exec' m ; k" := (bind m (λ _, k))
  (at level 10, m at level 100, k at level 200) : coro_scope.
#[local] Open Scope coro_scope.

Fixpoint for_each {A} (f : A → M unit) (l : list A) : M unit :=
  match l with
  | [] => ret tt
  | x :: l' => exec f x; for_each f l'
  end.

(** *** The session *)

Definition db_read {A} (f : Store → A) : M A := λ w, (Ok (f (session w)), w).
Definition db_write (f : Store → Store) : M unit := λ w, (Ok tt, set_session f w).
Definition utcnow : M datetime := λ w, (Ok (now w), w).

(** [await db.commit()]: the flush meets the constraints of the store or
    raises [IntegrityError]. *)
Definition db_commit : M unit :=
  λ w, if integrity_ok (session w)
       then (Ok tt, {| committed := session w; session := session w; now := now w;
                       connections := connections w; published := published w;
                       outbox := outbox w |})
       else (Raise IntegrityError, w).

(** [await db.rollback()] *)
Definition db_rollback : M unit :=
  λ w, (Ok tt, set_session (λ _, committed w) w).

(** [await websocket_manager.send(pool, evt)] *)
Definition websocket_send (pool : list string) (evt : Event) : M unit :=
  λ w, (Ok tt, {| committed := committed w; session := session w; now := now w;
                  connections := connections w;
                  published := published w ++ [(pool, evt)];
                  outbox := outbox w ++ Ws.send pool evt (connections w) |}).

(** ** Statements ([sqlalchemy.select]) and their execution

    A statement is built generatively and rendered when executed: WHERE, then
    ORDER BY, then OFFSET, then LIMIT, whatever the order of the calls that
    built it.  OFFSET and LIMIT are given their meaning on non-negative
    arguments only; what a backend does with a negative one is not modelled
    (the properties below assume [0 ≤ offset] and [0 ≤ limit]). *)

Inductive SortOrder := ASC | DESC.

Module Query.
Section Select.
Context {Row : Type}.

Record Select := {
sel_where : list (Row → bool);
sel_order_by : list (Row → Row → comparison);
sel_offset : option Z;
sel_limit : option Z
}.

Definition select : Select :=
{| sel_where := []; sel_order_by := []; sel_offset := None; sel_limit := None |}.

Definition where_ (p : Row → bool) (s : Select) : Select :=
{| sel_where := sel_where s ++ [p]; sel_order_by := sel_order_by s;
 sel_offset := sel_offset s; sel_limit := sel_limit s |}.

Definition order_by (c : Row → Row → comparison) (s : Select) : Select :=
{| sel_where := sel_where s; sel_order_by := sel_order_by s ++ [c];
 sel_offset := sel_offset s; sel_limit := sel_limit s |}.

Definition offset (o : Z) (s : Select) : Select :=
{| sel_where := sel_where s; sel_order_by := sel_order_by s;
 sel_offset := Some o; sel_limit := sel_limit s |}.

Definition limit (l : Z) (s : Select) : Select :=
{| sel_where := sel_where s; sel_order_by := sel_order_by s;
 sel_offset := sel_offset s; sel_limit := Some l |}.

Definition asc (c : Row → Row → comparison) : Row → Row → comparison := c.
Definition desc (c : Row → Row → comparison) : Row → Row → comparison :=
λ a b, CompOpp (c a b).

Fixpoint lex (cs : list (Row → Row → comparison)) (a b : Row) : comparison :=
match cs with
| [] => Eq
| c :: cs' => match c a b with Eq => lex cs' a b | o => o end
end.

Definition matching (s : Select) (rows : list Row) : list Row :=
List.filter (λ r, forallb (λ p, p r) (sel_where s)) rows.

Definition ordered (s : Select) (rows : list Row) : list Row :=
merge_sort (λ a b, lex (sel_order_by s) a b ≠ Gt) rows.

Definition window {A} (s : Select) (l : list A) : list A :=
let l := match sel_offset s with Some o => drop (Z.to_nat o) l | None => l end in
match sel_limit s with Some n => take (Z.to_nat n) l | None => l end.

(** [db.execute(stmt)] followed by [.all()] *)
Definition execute (s : Select) (rows : list Row) : list Row :=
window s (ordered s (matching s rows)).

(** [db.execute(stmt.with_only_columns(func.count(), ...)).scalar()]: the
statement yields one row holding the count; [scalar] is its first
column, or [None] when no row comes back. *)
Definition execute_count (s : Select) (rows : list Row) : option Z :=
head (window s [Z.of_nat (length (matching s rows))]).

End Select.
Arguments Select : clear implicits.
End Query.

(** ** Calls and names, as Python resolves them *)

(** Binding of keyword arguments to a signature of keyword-only parameters
    (name, default): an argument the signature does not have, or a parameter
    without default that is not passed, is a [TypeError]. *)
Definition bind_kwargs (sig : list (string * option PyVal))
    (kwargs : list (string * PyVal)) : res (gmap string PyVal) :=
  match List.find (λ kv, negb (bool_decide (kv.1 ∈ sig.*1))) kwargs with
  | Some kv => Raise (TypeError ("got an unexpected keyword argument " ++ kv.1))
  | None =>
      fold_right
        (λ p acc,
           match acc with
           | Raise e => Raise e
           | Ok env =>
               match (list_to_map kwargs : gmap string PyVal) !! p.1, p.2 with
               | Some v, _ => Ok (<[p.1 := v]> env)
               | None, Some d => Ok (<[p.1 := d]> env)
               | None, None =>
                   Raise (TypeError ("missing required keyword-only argument " ++ p.1))
               end
           end)
        (Ok ∅) sig
  end.

Definition py_builtins : list string :=
  ["abs"; "aiter"; "all"; "anext"; "any"; "ascii"; "bin"; "bool"; "breakpoint";
   "bytearray"; "bytes"; "callable"; "chr"; "classmethod"; "compile"; "complex";
   "delattr"; "dict"; "dir"; "divmod"; "enumerate"; "eval"; "exec"; "filter";
   "float"; "format"; "frozenset"; "getattr"; "globals"; "hasattr"; "hash";
   "help"; "hex"; "id"; "input"; "int"; "isinstance"; "issubclass"; "iter";
   "len"; "list"; "locals"; "map"; "max"; "memoryview"; "min"; "next"; "object";
   "oct"; "open"; "ord"; "pow"; "print"; "property"; "range"; "repr";
   "reversed"; "round"; "set"; "setattr"; "slice"; "sorted"; "staticmethod";
   "str"; "sum"; "super"; "tuple"; "type"; "vars"; "zip"]%string.

(** Loading a name: the local scope, then the module's globals, then the
    builtins; otherwise [NameError]. *)
Definition load (globals : list string) (locals : gmap string PyVal)
    (n : string) : M PyVal :=
  match locals !! n with
  | Some v => ret v
  | None =>
      if bool_decide (n ∈ globals ++ py_builtins) then ret (VObj n)
      else raise (NameError n)
  end.

(** Not among the sources: [spoolman/database/models.py], the module that
    both database files import as [models].  The sources take the classes
    [Bottle], [Resin] and [Vendor] from it; the load of any other attribute
    of the module is an [AttributeError].  A load that succeeds has no
    effect, and is written out only in the functions that also load an
    attribute the module does not have. *)
Definition models_classes : list string := ["Bottle"; "Resin"; "Vendor"]%string.

Definition models_getattr (n : string) : M PyVal :=
  if bool_decide (n ∈ models_classes) then ret (VObj n) else raise (AttributeError n).

Definition remove_resin (resin_id : Z) : Store → Store :=
  set_resins (base.delete resin_id).

(** ** [spoolman/database/resin.py] *)

Module ResinDb.

(** The names bound at module level: the imports and the definitions. *)
Definition module_globals : list string :=
  ["logging"; "Sequence"; "datetime"; "Optional"; "Union"; "func"; "select";
   "IntegrityError"; "AsyncSession"; "contains_eager"; "joinedload";
   "EventType"; "Resin"; "ResinEvent"; "models"; "vendor"; "SortOrder";
   "add_where_clause_int_in"; "add_where_clause_int_opt";
   "add_where_clause_str"; "add_where_clause_str_opt"; "parse_nested_field";
   "ItemDeleteError"; "ItemNotFoundError"; "delta_e"; "hex_to_rgb";
   "rgb_to_lab"; "websocket_manager"; "create"; "get_by_id"; "find"; "update";
   "delete"; "logger"; "find_materials"; "find_article_numbers";
   "find_by_color"; "resin_changed"]%string.

(** [resin_changed]: the event class and the snapshot class are loaded under
    the names [FilamentEvent] and [Filament]. *)
Definition resin_changed (resin : ResinRow) (typ : EventType) : M unit :=
  do _ <- load module_globals ∅ "websocket_manager";
  do _ <- load module_globals ∅ "str";
  do _ <- load module_globals ∅ "FilamentEvent";
  do _ <- load module_globals ∅ "datetime";
  do date <- utcnow;
  do _ <- load module_globals ∅ "Filament";
  websocket_send ["resin"; str (r_id resin)]%string
    {| ev_type := typ; ev_resource := "resin"; ev_date := date;
       ev_payload := PResin resin |}.

(** [vendor.get_by_id] ([spoolman/database/vendor.py]), as the sibling
    [get_by_id] below. *)
Definition vendor_get_by_id (vendor_id : Z) : M VendorRow :=
  do v <- db_read (λ s, vendors s !! vendor_id);
  match v with
  | None => raise (ItemNotFoundError ("No vendor with ID " ++ str vendor_id ++ " found."))
  | Some v => ret v
  end.

(** The keyword-only parameters of [create] after [db], with their
    defaults. *)
Definition create_signature : list (string * option PyVal) :=
  [("density", None); ("name", Some VNone); ("vendor_id", Some VNone);
   ("material", Some VNone); ("price", Some VNone); ("weight", Some VNone);
   ("bottle_weight", Some VNone); ("article_number", Some VNone);
   ("comment", Some VNone); ("cure_temp", Some VNone);
   ("cure_time", Some VNone); ("wash_time", Some VNone);
   ("color_hex", Some VNone)]%string.

Definition create (kwargs : list (string * PyVal)) : M ResinRow :=
  do locals <- lift (bind_kwargs create_signature kwargs);
  let name_ := load module_globals locals in
  do vendor_id <- name_ "vendor_id";
  do vendor_item <-
    match vendor_id with
    | VNone => ret None
    | VInt v => do item <- vendor_get_by_id v; ret (Some item)
    | _ => raise (ItemNotFoundError "No vendor with that ID found.")
    end;
  do name <- name_ "name";
  do registered <- utcnow;
  do material <- name_ "material";
  do price <- name_ "price";
  do density <- name_ "density";
  do diameter <- name_ "diameter";
  do weight <- name_ "weight";
  do bottle_weight <- name_ "bottle_weight";
  do article_number <- name_ "article_number";
  do comment <- name_ "comment";
  do cure_temp <- name_ "settings_cure_temp";
  do cure_time <- name_ "settings_cure_time";
  do wash_time <- name_ "settings_wash_time";
  do color_hex <- name_ "color_hex";
  do id <- db_read (λ s, fresh_id (resins s));
  let resin :=
    {| r_id := id; r_registered := registered; r_name := as_str name;
       r_vendor_id := as_int vendor_id; r_material := as_str material;
       r_price := as_float price; r_density := default 0%Q (as_float density);
       r_diameter := default 0%Q (as_float diameter); r_weight := as_float weight;
       r_bottle_weight := as_float bottle_weight;
       r_article_number := as_str article_number; r_comment := as_str comment;
       r_cure_temp := as_int cure_temp; r_cure_time := as_int cure_time;
       r_wash_time := as_int wash_time; r_color_hex := as_str color_hex |} in
  exec db_write (set_resins <[id := resin]>);
  exec db_commit;
  exec resin_changed resin ADDED;
  ret resin.

Definition get_by_id (resin_id : Z) : M ResinRow :=
  do resin <- db_read (λ s, resins s !! resin_id);
  match resin with
  | None => raise (ItemNotFoundError ("No resin with ID " ++ str resin_id ++ " found."))
  | Some resin => ret resin
  end.

(** A row of [select(Resin).join(vendor, isouter=True)]. *)
Definition Joined : Type := ResinRow * option VendorRow.

Definition joined (s : Store) : list Joined :=
  List.map (λ r : ResinRow, (r, r_vendor_id r ≫= λ v, vendors s !! v))
    (map_to_list (resins s)).*2.

Section Helpers.
(** Not among the sources: [parse_nested_field]
    ([spoolman.database.utils]) resolves a field path to a column, here to
    the comparison of two rows on it, or fails; [hex_to_rgb],
    [rgb_to_lab] and [delta_e] ([spoolman.math]). *)
Context {Lab RGB : Type}.
Variable parse_nested_field : string → res (Joined → Joined → comparison).
Variable hex_to_rgb : string → res RGB.
Variable rgb_to_lab : RGB → Lab.
Variable delta_e : Lab → Lab → Q.

Definition sort_loop (sort_by : list (string * SortOrder))
    (stmt : Query.Select Joined) : M (Query.Select Joined) :=
  fold_left
    (λ acc item,
       do stmt <- acc;
       do _ <- models_getattr "Resin";
       do field <- lift (parse_nested_field item.1);
       match item.2 with
       | ASC => ret (Query.order_by (Query.asc field) stmt)
       | DESC => ret (Query.order_by (Query.desc field) stmt)
       end)
    sort_by (ret stmt).

(** [filters] are the WHERE clauses that the [add_where_clause_*] helpers
    ([spoolman.database.utils]) add for the filter arguments that are
    set.  The attributes of [models] are loaded in the order in which Python
    evaluates the expressions that name them. *)
Definition find (filters : list (Joined → bool))
    (sort_by : option (list (string * SortOrder)))
    (limit : option Z) (offset : Z) : M (list ResinRow * Z) :=
  (* select(models.Resin).options(contains_eager(models.Resin.vendor))
       .join(models.R.vendor, isouter=True) *)
  do _ <- models_getattr "Resin";
  do _ <- models_getattr "Resin";
  do _ <- models_getattr "R";
  (* the columns handed to the add_where_clause_* helpers *)
  exec for_each (λ n, do _ <- models_getattr n; ret tt)
         ["Resin"; "Resin"; "Vendor"; "Resin"; "Resin"; "Resin"]%string;
  let stmt := fold_left (λ s p, Query.where_ p s) filters Query.select in
  do total_count <-
    match limit with
    | Some _ => db_read (λ s, Query.execute_count stmt (joined s))
    | None => ret None
    end;
  let stmt :=
    match limit with
    | Some l => Query.limit l (Query.offset offset stmt)
    | None => stmt
    end in
  do stmt <-
    match sort_by with
    | Some items => sort_loop items stmt
    | None => ret stmt
    end;
  do rows <- db_read (λ s, Query.execute stmt (joined s));
  let result := rows.*1 in
  let total_count :=
    match total_count with
    | None => Z.of_nat (length result)
    | Some n => n
    end in
  ret (result, total_count).

Fixpoint color_loop (color_query_lab : Lab) (similarity_threshold : Q)
    (resins : list ResinRow) (found_resins : list ResinRow) : M (list ResinRow) :=
  match resins with
  | [] => ret found_resins
  | resin :: rest =>
      match r_color_hex resin with
      | None => color_loop color_query_lab similarity_threshold rest found_resins
      | Some hex =>
          do rgb <- lift (hex_to_rgb hex);
          let color_lab := rgb_to_lab rgb in
          if Qle_bool (delta_e color_query_lab color_lab) similarity_threshold
          then color_loop color_query_lab similarity_threshold rest
                 (found_resins ++ [resin])
          else color_loop color_query_lab similarity_threshold rest found_resins
      end
  end.

Definition find_by_color (color_query_hex : string)
    (similarity_threshold : Q) : M (list ResinRow) :=
  do found <- find [] None None 0;
  do rgb <- lift (hex_to_rgb color_query_hex);
  let color_query_lab := rgb_to_lab rgb in
  color_loop color_query_lab similarity_threshold found.1 [].

End Helpers.

Definition delete (resin_id : Z) : M unit :=
  do resin <- get_by_id resin_id;
  exec db_write (remove_resin resin_id);
  try_except_IntegrityError
    (exec db_commit; resin_changed resin DELETED)
    (exec db_rollback; raise (ItemDeleteError "Failed to delete resin.")).

(** [select(column).distinct()] followed by the comprehension that drops
    [None]: the distinct values of the column, in no particular order, the
    NULL among them left out. *)
Definition find_materials : M (list string) :=
  do rows <- db_read (λ s, remove_dups (List.map r_material (map_to_list (resins s)).*2));
  ret (omap id rows).

Definition find_article_numbers : M (list string) :=
  do rows <-
    db_read (λ s, remove_dups (List.map r_article_number (map_to_list (resins s)).*2));
  ret (omap id rows).

End ResinDb.

(** ** [spoolman.math.weight_from_length] *)

(** [math.pi], the double nearest to pi. *)
Definition pi : Q := 884279719003555 # 281474976710656.

(** Modelled from the spec: [spoolman/math.py] is not among the sources.  The
    volume of the cylinder is pi * (diameter / 2)^2 * length in cubic
    millimetres, divided by 1000 to cubic centimetres, times the density in
    grams per cubic centimetre. *)
Definition weight_from_length (length diameter density : Q) : Q :=
  (density * ((pi * ((diameter / 2) * (diameter / 2)) * length) / 1000))%Q.

(** ** [spoolman/database/bottle.py] *)

(** The CASE expression of [use_weight_safe]; a comparison with NULL is not
    true, which selects the ELSE branch. *)
Definition case_used_weight (weight : Q) (used_weight : option Q) : option Q :=
  match used_weight with
  | Some u => if Qle_bool 0 (u + weight) then Some (u + weight)%Q else Some 0%Q
  | None => Some 0%Q
  end.

(** [UPDATE bottle SET used_weight = CASE ... END WHERE id = bottle_id]: one
    statement, evaluated by the store on the row as it is there. *)
Definition update_used_weight (bottle_id : Z) (weight : Q) : Store → Store :=
  set_bottles
    (alter (λ b, with_used_weight (case_used_weight weight (b_used_weight b)) b)
           bottle_id).

(** The statements of several calls, run one after the other in the order
    given. *)
Definition interleaved (bottle_id : Z) (weights : list Q) (s : Store) : Store :=
  fold_left (λ s weight, update_used_weight bottle_id weight s) weights s.

(** *** Sessions that run at the same time

    What the store sees of a coroutine is the sequence of its round trips: a
    statement that the store runs on the rows as they are at that moment, or
    a read whose result decides what the coroutine sends next.  Between two
    round trips of one session the round trips of the others may run. *)
Inductive Script :=
| Finished
| Execute (statement : Store → Store) (next : Script)
| Fetch (next : Store → Script).

(** A script run alone, in the session of one request. *)
Fixpoint in_session (p : Script) : M unit :=
  match p with
  | Finished => ret tt
  | Execute statement next => exec db_write statement; in_session next
  | Fetch next => λ w, in_session (next (session w)) w
  end.

(** The store runs the next round trip of session [i]; nothing happens when
    there is no such session or it has finished. *)
Definition step_session (i : nat) (c : list Script * Store) : list Script * Store :=
  match c.1 !! i with
  | Some (Execute statement next) => (<[i := next]> c.1, statement c.2)
  | Some (Fetch next) => (<[i := next c.2]> c.1, c.2)
  | Some Finished | None => c
  end.

(** A schedule names, round trip by round trip, the session that runs. *)
Definition run_schedule (schedule : list nat) (c : list Script * Store)
    : list Script * Store :=
  fold_left (λ c i, step_session i c) schedule c.

(** The sessions of a schedule in the order of their first round trip, and
    the sessions that have run after it; [seen] are those that ran before. *)
Fixpoint run_order (schedule seen : list nat) : list nat :=
  match schedule with
  | [] => []
  | i :: rest =>
      if bool_decide (i ∈ seen) then run_order rest seen
      else i :: run_order rest (i :: seen)
  end.

Definition seen_after (schedule seen : list nat) : list nat :=
  fold_left (λ seen i, if bool_decide (i ∈ seen) then seen else i :: seen)
    schedule seen.

Inductive Item :=
| I_first_used (v : option datetime)
| I_last_used (v : option datetime)
| I_resin_id (v : option Z)
| I_remaining_weight (v : option Q)
| I_used_weight (v : option Q)
| I_location (v : option string)
| I_lot_nr (v : option string)
| I_comment (v : option string)
| I_archived (v : bool).

Module BottleDb.

Definition bottle_changed (bottle : BottleRow) (typ : EventType) : M unit :=
  do date <- utcnow;
  websocket_send ["bottle"; str (b_id bottle)]%string
    {| ev_type := typ; ev_resource := "bottle"; ev_date := date;
       ev_payload := PBottle bottle |}.

Definition create (resin_id : Z) (remaining_weight used_weight : option Q)
    (first_used last_used : option datetime)
    (location lot_nr comment : option string) (archived : bool) : M BottleRow :=
  do resin_item <- ResinDb.get_by_id resin_id;
  do used_weight <-
    match used_weight with
    | None =>
        match remaining_weight with
        | Some remaining_weight =>
            match r_weight resin_item with
            | None =>
                raise (ItemCreateError
                  "remaining_weight can only be used if the resin type has a weight set.")
            | Some weight => ret (py_max (weight - remaining_weight) 0)
            end
        | None => ret 0%Q
        end
    | Some used_weight => ret used_weight
    end;
  let first_used := utc_timezone_naive <$> first_used in
  let last_used := utc_timezone_naive <$> last_used in
  do registered <- utcnow;
  do id <- db_read (λ s, fresh_id (bottles s));
  (* resin=resin_item: the foreign key is the primary key of the related
     row, the key it was loaded by *)
  let bottle :=
    {| b_id := id; b_registered := registered; b_resin_id := resin_id;
       b_used_weight := Some used_weight; b_first_used := first_used;
       b_last_used := last_used; b_location := location; b_lot_nr := lot_nr;
       b_comment := comment; b_archived := Some archived |} in
  exec db_write (set_bottles <[id := bottle]>);
  exec db_commit;
  exec bottle_changed bottle ADDED;
  ret bottle.

Definition get_by_id (bottle_id : Z) : M BottleRow :=
  do bottle <- db_read (λ s, bottles s !! bottle_id);
  match bottle with
  | None => raise (ItemNotFoundError ("No bottle with ID " ++ str bottle_id ++ " found."))
  | Some bottle => ret bottle
  end.

(** A loaded object is the session's row: [setattr] writes the working
    copy, and reading the object after the loop reads it back. *)
Definition setattr (bottle_id : Z) (f : BottleRow → BottleRow) : M unit :=
  db_write (set_bottles (alter f bottle_id)).

(** [bottle.resin]: the related row, loaded with the bottle. *)
Definition bottle_resin (bottle_id : Z) : M ResinRow :=
  do bottle <- get_by_id bottle_id;
  do resin <- db_read (λ s, resins s !! b_resin_id bottle);
  match resin with
  | None => raise (AttributeError "weight")
  | Some resin => ret resin
  end.

Definition update_item (bottle_id : Z) (item : Item) : M unit :=
  match item with
  | I_resin_id v =>
      match v with
      | Some v =>
          do _ <- ResinDb.get_by_id v;
          setattr bottle_id (with_resin_id v)
      | None => raise (ItemNotFoundError "No resin with ID None found.")
      end
  | I_remaining_weight v =>
      do resin <- bottle_resin bottle_id;
      match r_weight resin with
      | None =>
          raise (ItemCreateError
            "remaining_weight can only be used if the resin type has a weight set.")
      | Some weight =>
          match v with
          | Some v => setattr bottle_id (with_used_weight (Some (py_max (weight - v) 0)))
          | None => raise (TypeError "unsupported operand type(s) for -")
          end
      end
  | I_first_used (Some v) => setattr bottle_id (with_first_used (Some (utc_timezone_naive v)))
  | I_last_used (Some v) => setattr bottle_id (with_last_used (Some (utc_timezone_naive v)))
  | I_first_used None => setattr bottle_id (with_first_used None)
  | I_last_used None => setattr bottle_id (with_last_used None)
  | I_used_weight v => setattr bottle_id (with_used_weight v)
  | I_location v => setattr bottle_id (with_location v)
  | I_lot_nr v => setattr bottle_id (with_lot_nr v)
  | I_comment v => setattr bottle_id (with_comment v)
  | I_archived v => setattr bottle_id (with_archived (Some v))
  end.

Definition update (bottle_id : Z) (data : list Item) : M BottleRow :=
  do _ <- get_by_id bottle_id;
  exec for_each (update_item bottle_id) data;
  exec db_commit;
  do bottle <- get_by_id bottle_id;
  exec bottle_changed bottle UPDATED;
  ret bottle.

Definition use_weight_safe (bottle_id : Z) (weight : Q) : M unit :=
  db_write (update_used_weight bottle_id weight).

(** The round trips of [use_weight_safe]: the one [db.execute] of the one
    UPDATE. *)
Definition use_weight_safe_script (bottle_id : Z) (weight : Q) : Script :=
  Execute (update_used_weight bottle_id weight) Finished.

(** The part that [use_weight] and [use_length] share after the UPDATE. *)
Definition touch (bottle_id : Z) : M BottleRow :=
  do bottle <- get_by_id bottle_id;
  do t <- utcnow;
  exec (match b_first_used bottle with
        | None => setattr bottle_id (with_first_used (Some t))
        | Some _ => ret tt
        end);
  exec setattr bottle_id (with_last_used (Some t));
  exec db_commit;
  do bottle <- get_by_id bottle_id;
  exec bottle_changed bottle UPDATED;
  ret bottle.

Definition use_weight (bottle_id : Z) (weight : Q) : M BottleRow :=
  exec use_weight_safe bottle_id weight;
  touch bottle_id.

(** The statement that reads diameter and density names [models.models]
    before it is sent. *)
Definition use_length (bottle_id : Z) (length : Q) : M BottleRow :=
  (* select(models.models.Resin.diameter, models.models.Resin.density)
       .join(models.Bottle, models.Bottle.resin_id == models.models.Resin.id)
       .where(models.Bottle.id == bottle_id) *)
  exec for_each (λ n, do _ <- models_getattr n; ret tt)
         ["models"; "models"; "Bottle"; "Bottle"; "models"; "Bottle"]%string;
  do resin_info <-
    db_read (λ s, bottles s !! bottle_id ≫= λ b, resins s !! b_resin_id b);
  match resin_info with
  | None => raise (ItemNotFoundError "Resin not found for bottle.")
  | Some resin_info =>
      let weight :=
        weight_from_length length (r_diameter resin_info) (r_density resin_info) in
      exec use_weight_safe bottle_id weight;
      touch bottle_id
  end.

(** A row of [select(Bottle).join(resin, isouter=True).join(vendor,
    isouter=True)]. *)
Definition Joined : Type := BottleRow * option ResinRow * option VendorRow.

Definition joined (s : Store) : list Joined :=
  List.map
    (λ b : BottleRow,
       let r := resins s !! b_resin_id b in
       (b, r, r ≫= λ r, r_vendor_id r ≫= λ v, vendors s !! v))
    (map_to_list (bottles s)).*2.

(** The column labelled [remaining_weight]; NULL when an operand is. *)
Definition remaining_weight (j : Joined) : option Q :=
  match j.1.2 ≫= r_weight, b_used_weight j.1.1 with
  | Some w, Some u => Some (w - u)%Q
  | _, _ => None
  end.

(** Comparison of two values of a nullable column, NULL first. *)
Definition compare_nullable (x y : option Q) : comparison :=
  match x, y with
  | None, None => Eq
  | None, Some _ => Lt
  | Some _, None => Gt
  | Some a, Some b => Qcompare a b
  end.

Section Helpers.
(** Not among the sources: [parse_nested_field]
    ([spoolman.database.utils]). *)
Variable parse_nested_field : string → res (Joined → Joined → comparison).

Definition sort_loop (sort_by : list (string * SortOrder))
    (stmt : Query.Select Joined) : M (Query.Select Joined) :=
  fold_left
    (λ acc item,
       do stmt <- acc;
       do field <-
         (if String.eqb item.1 "remaining_weight"
          then
            do _ <- models_getattr "models";
            do _ <- models_getattr "Bottle";
            ret (λ a b, compare_nullable (remaining_weight a) (remaining_weight b))
          else
            do _ <- models_getattr "Bottle";
            lift (parse_nested_field item.1));
       match item.2 with
       | ASC => ret (Query.order_by (Query.asc field) stmt)
       | DESC => ret (Query.order_by (Query.desc field) stmt)
       end)
    sort_by (ret stmt).

(** [filters] are the WHERE clauses that the [add_where_clause_*] helpers
    ([spoolman.database.utils]) add for the filter arguments that are
    set.  The attributes of [models] are loaded in the order in which Python
    evaluates the expressions that name them. *)
Definition find (filters : list (Joined → bool)) (allow_archived : bool)
    (sort_by : option (list (string * SortOrder)))
    (limit : option Z) (offset : Z) : M (list BottleRow * Z) :=
  (* sqlalchemy.select(models.Bottle)
       .join(models.Bottle.resin, isouter=True)
       .join(models.models.Resin.vendor, isouter=True)
       .options(contains_eager(models.Bottle.resin)
                  .contains_eager(models.models.Resin.vendor)) *)
  do _ <- models_getattr "Bottle";
  do _ <- models_getattr "Bottle";
  do _ <- models_getattr "models";
  do _ <- models_getattr "Bottle";
  do _ <- models_getattr "models";
  (* the columns handed to the add_where_clause_* helpers *)
  exec for_each (λ n, do _ <- models_getattr n; ret tt)
         ["Bottle"; "models"; "Vendor"; "models"; "models"; "Bottle"; "Bottle"]%string;
  let stmt := fold_left (λ s p, Query.where_ p s) filters Query.select in
  do stmt <-
    (if negb allow_archived
     then
       do _ <- models_getattr "Bottle";
       do _ <- models_getattr "Bottle";
       ret (Query.where_
              (λ j, match b_archived j.1.1 with
                    | Some false | None => true
                    | Some true => false
                    end) stmt)
     else ret stmt);
  do total_count <-
    match limit with
    | Some _ => db_read (λ s, Query.execute_count stmt (joined s))
    | None => ret None
    end;
  let stmt :=
    match limit with
    | Some l => Query.limit l (Query.offset offset stmt)
    | None => stmt
    end in
  do stmt <-
    match sort_by with
    | Some items => sort_loop items stmt
    | None => ret stmt
    end;
  do rows <- db_read (λ s, Query.execute stmt (joined s));
  let result := rows.*1.*1 in
  let total_count :=
    match total_count with
    | None => Z.of_nat (length result)
    | Some n => n
    end in
  ret (result, total_count).

End Helpers.

(** [delete]: the row leaves the working copy and the event is published;
    the function does not commit. *)
Definition delete (bottle_id : Z) : M unit :=
  do bottle <- get_by_id bottle_id;
  exec db_write (set_bottles (base.delete bottle_id));
  bottle_changed bottle DELETED.

Definition find_locations : M (list string) :=
  do rows <- db_read (λ s, remove_dups (List.map b_location (map_to_list (bottles s)).*2));
  ret (omap id rows).

Definition find_lot_numbers : M (list string) :=
  do rows <- db_read (λ s, remove_dups (List.map b_lot_nr (map_to_list (bottles s)).*2));
  ret (omap id rows).

End BottleDb.

(** ** Requests and responses *)

Inductive Content :=
| CMessage (message : string)
| CBottle (b : BottleRow)
| CResin (r : ResinRow).

Record Response := {
  status_code : Z;
  content : Content
}.

Definition JSONResponse (status : Z) (message : string) : Response :=
  {| status_code := status; content := CMessage message |}.

(** Field constraints of the request bodies ([Field(ge=0)],
    [Field(max_length=...)]); an unset or null field meets them. *)
Definition ge_0 (v : option Q) : bool :=
  match v with Some q => Qle_bool 0 q | None => true end.
Definition max_length (n : nat) (v : option string) : bool :=
  match v with Some s => (String.length s <=? n)%nat | None => true end.

(** Not among the sources: the session dependency
    ([spoolman.database.database.get_db_session]) and the exception handlers of
    the application.  A request runs in a session of its own;
    [commit_on_exit] tells whether the dependency commits what the handler
    left uncommitted when it returns; an exception rolls the session back.
    [ItemNotFoundError] is the not-found condition (404), a request that fails
    validation is answered 422, anything else 500. *)
Definition exception_response (e : exn) : Response :=
  match e with
  | ItemNotFoundError msg => JSONResponse 404 msg
  | RequestValidationError msg => JSONResponse 422 msg
  | _ => JSONResponse 500 "Internal Server Error"
  end.

Definition serve (commit_on_exit : bool) (handler : M Response) (w : World)
    : Response * World :=
  match handler (db_rollback w).2 with
  | (Ok r, w1) =>
      if commit_on_exit then
        match db_commit w1 with
        | (Ok _, w2) => (r, w2)
        | (Raise e, w2) => (exception_response e, (db_rollback w2).2)
        end
      else (r, (db_rollback w1).2)
  | (Raise e, w1) => (exception_response e, (db_rollback w1).2)
  end.

(** A request body is validated before the handler runs. *)
Definition validated {Body} (valid : Body → bool) (handler : Body → M Response)
    (body : Body) : M Response :=
  if valid body then handler body
  else raise (RequestValidationError "value is not a valid body").

(** *** Websocket endpoints *)

Inductive Incoming :=
| Text (s : string)
| WebSocketDisconnect.

(** The liveness loop of a connection, run on the frames the peer sends; when
    they are used up the loop is waiting in [receive_text]. *)
Fixpoint listen (pool : list string) (websocket : Ws.Conn)
    (incoming : list Incoming) : M unit :=
  match incoming with
  | [] => ret tt
  | Text s :: rest =>
      exec (if String.eqb s "" then ret tt
            else λ w, (Ok tt,
                   {| committed := committed w; session := session w; now := now w;
                      connections := connections w; published := published w;
                      outbox := outbox w ++ [(websocket, Healthy)] |}));
      listen pool websocket rest
  | WebSocketDisconnect :: _ =>
      λ w, (Ok tt, set_connections (Ws.disconnect pool websocket) w)
  end.

Definition websocket_endpoint (pool : list string) (websocket : Ws.Conn)
    (incoming : list Incoming) : M unit :=
  exec (λ w, (Ok tt, set_connections (Ws.connect pool websocket) w));
  listen pool websocket incoming.

(** ** [spoolman/api/v1/bottle.py] *)

Module BottleApi.

Record BottleParameters := {
  first_used : option datetime;
  last_used : option datetime;
  resin_id : Z;
  remaining_weight : option Q;
  used_weight : option Q;
  location : option string;
  lot_nr : option string;
  comment : option string;
  archived : bool
}.

Definition BottleParameters_valid (body : BottleParameters) : bool :=
  ge_0 (remaining_weight body) && ge_0 (used_weight body)
  && max_length 64 (location body) && max_length 64 (lot_nr body)
  && max_length 1024 (comment body).

(** Every field of an update is optional: [None] is a field the request
    does not set, [Some None] a field set to null. *)
Record BottleUpdateParameters := {
  upd_first_used : option (option datetime);
  upd_last_used : option (option datetime);
  upd_resin_id : option (option Z);
  upd_remaining_weight : option (option Q);
  upd_used_weight : option (option Q);
  upd_location : option (option string);
  upd_lot_nr : option (option string);
  upd_comment : option (option string);
  upd_archived : option bool
}.

Definition BottleUpdateParameters_valid (body : BottleUpdateParameters) : bool :=
  ge_0 (mjoin (upd_remaining_weight body)) && ge_0 (mjoin (upd_used_weight body))
  && max_length 64 (mjoin (upd_location body))
  && max_length 64 (mjoin (upd_lot_nr body))
  && max_length 1024 (mjoin (upd_comment body)).

(** [body.dict(exclude_unset=True)]: the fields the request sets, in the
    order of their declaration. *)
Definition dict_exclude_unset (body : BottleUpdateParameters) : list Item :=
  omap id
    [I_first_used <$> upd_first_used body;
     I_last_used <$> upd_last_used body;
     I_resin_id <$> upd_resin_id body;
     I_remaining_weight <$> upd_remaining_weight body;
     I_used_weight <$> upd_used_weight body;
     I_location <$> upd_location body;
     I_lot_nr <$> upd_lot_nr body;
     I_comment <$> upd_comment body;
     I_archived <$> upd_archived body].

Record BottleUseParameters := {
  use_length : option Q;
  use_weight : option Q
}.

Definition notify_any (websocket : Ws.Conn) (incoming : list Incoming) : M unit :=
  websocket_endpoint ["bottle"]%string websocket incoming.

Definition notify (websocket : Ws.Conn) (bottle_id : Z)
    (incoming : list Incoming) : M unit :=
  websocket_endpoint ["bottle"; str bottle_id]%string websocket incoming.

Definition create (body : BottleParameters) : M Response :=
  if bool_decide (is_Some (remaining_weight body))
     && bool_decide (is_Some (used_weight body))
  then ret (JSONResponse 400 "Only specify either remaining_weight or used_weight.")
  else
    try_except_ItemCreateError
      (do db_item <-
         BottleDb.create (resin_id body) (remaining_weight body) (used_weight body)
           (first_used body) (last_used body) (location body) (lot_nr body)
           (comment body) (archived body);
       ret {| status_code := 200; content := CBottle db_item |})
      (ret (JSONResponse 400
         "Failed to create bottle, see server logs for more information.")).

Definition update (bottle_id : Z) (body : BottleUpdateParameters) : M Response :=
  let patch_data := dict_exclude_unset body in
  if bool_decide (is_Some (mjoin (upd_remaining_weight body)))
     && bool_decide (is_Some (mjoin (upd_used_weight body)))
  then ret (JSONResponse 400 "Only specify either remaining_weight or used_weight.")
  else if bool_decide (upd_resin_id body = Some None)
  then raise (RequestValidationError "resin_id cannot be unset")
  else
    try_except_ItemCreateError
      (do db_item <- BottleDb.update bottle_id patch_data;
       ret {| status_code := 200; content := CBottle db_item |})
      (ret (JSONResponse 400
         "Failed to update bottle, see server logs for more information.")).

Definition use (bottle_id : Z) (body : BottleUseParameters) : M Response :=
  if bool_decide (is_Some (use_weight body)) && bool_decide (is_Some (use_length body))
  then ret (JSONResponse 400 "Only specify either use_weight or use_length.")
  else
    match use_weight body with
    | Some weight =>
        do db_item <- BottleDb.use_weight bottle_id weight;
        ret {| status_code := 200; content := CBottle db_item |}
    | None =>
        match use_length body with
        | Some length =>
            do db_item <- BottleDb.use_length bottle_id length;
            ret {| status_code := 200; content := CBottle db_item |}
        | None =>
            ret (JSONResponse 400 "Either use_weight or use_length must be specified.")
        end
    end.

Definition get (bottle_id : Z) : M Response :=
  do db_item <- BottleDb.get_by_id bottle_id;
  ret {| status_code := 200; content := CBottle db_item |}.

Definition delete (bottle_id : Z) : M Response :=
  exec BottleDb.delete bottle_id;
  ret (JSONResponse 200 "Success!").

End BottleApi.

(** ** [spoolman/api/v1/resin.py] *)

Module ResinApi.

Record ResinParameters := {
  name : option string;
  vendor_id : option Z;
  material : option string;
  price : option Q;
  density : Q;
  diameter : Q;
  weight : option Q;
  bottle_weight : option Q;
  article_number : option string;
  comment : option string;
  cure_temp : option Z;
  cure_time : option Z;
  wash_time : option Z;
  color_hex : option string
}.

Definition gt_0 (v : option Q) : bool :=
  match v with Some q => negb (Qle_bool q 0) | None => true end.
Definition int_ge_0 (v : option Z) : bool :=
  match v with Some z => 0 <=? z | None => true end.

Definition upper (s : string) : string :=
  string_of_list_ascii
    (List.map
       (λ c, let n := Ascii.nat_of_ascii c in
             if (97 <=? n)%nat && (n <=? 122)%nat
             then Ascii.ascii_of_nat (n - 32) else c)
       (list_ascii_of_string s)).

Definition is_hex_digit (c : ascii) : bool :=
  bool_decide (c ∈ list_ascii_of_string "0123456789ABCDEF").

(** The validator of [color_hex]: [None] for an empty value, otherwise the
    code without a leading [#] in upper case, which must be 6 or 8 hex
    digits. *)
Definition color_hex_validator (v : option string) : res (option string) :=
  match v with
  | None | Some EmptyString => Ok None
  | Some v =>
      let v := match v with String "#" v' => v' | _ => v end in
      let v := upper v in
      if negb (forallb is_hex_digit (list_ascii_of_string v))
      then Raise (ValueError "Invalid character in color code.")
      else if negb (bool_decide (String.length v ∈ [6%nat; 8%nat]))
      then Raise (ValueError "Color code must be 6 or 8 characters long.")
      else Ok (Some v)
  end.

Definition ResinParameters_valid (body : ResinParameters) : bool :=
  max_length 64 (name body) && max_length 64 (material body)
  && ge_0 (price body) && gt_0 (Some (density body)) && gt_0 (Some (diameter body))
  && gt_0 (weight body) && gt_0 (bottle_weight body)
  && max_length 64 (article_number body) && max_length 1024 (comment body)
  && int_ge_0 (cure_temp body) && int_ge_0 (cure_time body)
  && int_ge_0 (wash_time body)
  && match color_hex_validator (color_hex body) with
     | Ok _ => true
     | Raise _ => false
     end.

(** The attributes of a [ResinParameters] object are its declared fields. *)
Definition fields (body : ResinParameters) : list (string * PyVal) :=
  [("name", of_opt VStr (name body)); ("vendor_id", of_opt VInt (vendor_id body));
   ("material", of_opt VStr (material body)); ("price", of_opt VFloat (price body));
   ("density", VFloat (density body)); ("diameter", VFloat (diameter body));
   ("weight", of_opt VFloat (weight body));
   ("bottle_weight", of_opt VFloat (bottle_weight body));
   ("article_number", of_opt VStr (article_number body));
   ("comment", of_opt VStr (comment body));
   ("cure_temp", of_opt VInt (cure_temp body));
   ("cure_time", of_opt VInt (cure_time body));
   ("wash_time", of_opt VInt (wash_time body));
   ("color_hex", of_opt VStr (color_hex body))]%string.

Definition getattr (body : ResinParameters) (n : string) : M PyVal :=
  match List.find (λ kv, String.eqb kv.1 n) (fields body) with
  | Some kv => ret kv.2
  | None => raise (AttributeError n)
  end.

Definition notify_any (websocket : Ws.Conn) (incoming : list Incoming) : M unit :=
  websocket_endpoint ["resin"]%string websocket incoming.

Definition notify (websocket : Ws.Conn) (resin_id : Z)
    (incoming : list Incoming) : M unit :=
  websocket_endpoint ["resin"; str resin_id]%string websocket incoming.

Definition create (body : ResinParameters) : M Response :=
  do density <- getattr body "density";
  do diameter <- getattr body "diameter";
  do name <- getattr body "name";
  do vendor_id <- getattr body "vendor_id";
  do material <- getattr body "material";
  do price <- getattr body "price";
  do weight <- getattr body "weight";
  do bottle_weight <- getattr body "bottle_weight";
  do article_number <- getattr body "article_number";
  do comment <- getattr body "comment";
  do settings_cure_temp <- getattr body "settings_cure_temp";
  do settings_cure_time <- getattr body "settings_cure_time";
  do settings_wash_time <- getattr body "settings_wash_time";
  do color_hex <- getattr body "color_hex";
  do db_item <-
    ResinDb.create
      [("density", density); ("diameter", diameter); ("name", name);
       ("vendor_id", vendor_id); ("material", material); ("price", price);
       ("weight", weight); ("bottle_weight", bottle_weight);
       ("article_number", article_number); ("comment", comment);
       ("settings_cure_temp", settings_cure_temp);
       ("settings_cure_time", settings_cure_time);
       ("settings_wash_time", settings_wash_time);
       ("color_hex", color_hex)]%string;
  ret {| status_code := 200; content := CResin db_item |}.

Definition delete (resin_id : Z) : M Response :=
  try_except_ItemDeleteError
    (exec ResinDb.delete resin_id;
     ret (JSONResponse 200 "Success!"))
    (ret (JSONResponse 403
       "Failed to delete resin, see server logs for more information.")).

Definition get (resin_id : Z) : M Response :=
  do db_item <- ResinDb.get_by_id resin_id;
  ret {| status_code := 200; content := CResin db_item |}.

End ResinApi.

(** ** Observations used by the properties *)

(** The used-quantity of a bottle in a store. *)
Definition used_weight_of (s : Store) (bottle_id : Z) : option Q :=
  bottles s !! bottle_id ≫= b_used_weight.

(** The CASE expression on a stored value, as a function on rationals. *)
Definition clamp_add (u d : Q) : Q :=
  if Qle_bool 0 (u + d) then (u + d)%Q else 0%Q.

(** The sum of a list of deltas. *)
Definition total (weights : list Q) : Q := fold_right Qplus 0%Q weights.

(** The sessions of concurrent calls of [use_weight_safe] on one bottle, one
    call for each delta, of which those in [seen] have run. *)
Definition sessions_of (bottle_id : Z) (weights : list Q) (seen : list nat)
    : list Script :=
  imap (λ i weight,
          if bool_decide (i ∈ seen) then Finished
          else BottleDb.use_weight_safe_script bottle_id weight)
    weights.

(** No bottle of the store has a negative used-quantity. *)
Definition used_nonneg (s : Store) : Prop :=
  ∀ id b u, bottles s !! id = Some b → b_used_weight b = Some u → (0 <= u)%Q.

(** The invariant of the used-quantity on a world: it holds of the committed
    store and of the working copy of the session. *)
Definition bottles_nonneg (w : World) : Prop :=
  used_nonneg (committed w) ∧ used_nonneg (session w).

Definition preserves {A} (m : M A) : Prop :=
  ∀ w, bottles_nonneg w → bottles_nonneg (m w).2.

(** Whatever [m] returns satisfies [P]. *)
Definition returns {A} (m : M A) (P : A → Prop) : Prop :=
  ∀ w a w', m w = (Ok a, w') → P a.

(** What the field constraints leave of an item of the update dict. *)
Definition item_ok (i : Item) : Prop :=
  match i with
  | I_remaining_weight (Some q) | I_used_weight (Some q) => (0 <= q)%Q
  | _ => True
  end.

(** A connection is registered under a topic. *)
Definition subscribed (m : gmap (list string) (gset Ws.Conn))
    (pool : list string) (c : Ws.Conn) : Prop :=
  c ∈ default ∅ (m !! pool).

(** [m] leaves the world as it is, whether it returns or raises. *)
Definition stateless {A} (m : M A) : Prop :=
  ∀ w, (∃ a, m w = (Ok a, w)) ∨ (∃ e, m w = (Raise e, w)).

(** [m] raises, and leaves the world as it is. *)
Definition fails {A} (m : M A) : Prop :=
  ∀ w, ∃ e, m w = (Raise e, w).

(** The used-quantity a new bottle starts with: the used weight when it is
    given, otherwise what the remaining weight leaves of the resin's weight,
    otherwise 0; [None] when a remaining weight is given for a resin without
    weight. *)
Definition initial_used_weight (resin : ResinRow)
    (remaining_weight used_weight : option Q) : option Q :=
  match used_weight, remaining_weight, r_weight resin with
  | Some u, _, _ => Some u
  | None, Some r, Some c => Some (py_max (c - r) 0)
  | None, Some _, None => None
  | None, None, _ => Some 0%Q
  end.

(** An update request that sets the resin and the remaining weight and
    nothing else. *)
Definition move_and_refill (resin_id : Z) (remaining_weight : Q)
    : BottleApi.BottleUpdateParameters :=
  {| BottleApi.upd_first_used := None; BottleApi.upd_last_used := None;
     BottleApi.upd_resin_id := Some (Some resin_id);
     BottleApi.upd_remaining_weight := Some (Some remaining_weight);
     BottleApi.upd_used_weight := None; BottleApi.upd_location := None;
     BottleApi.upd_lot_nr := None; BottleApi.upd_comment := None;
     BottleApi.upd_archived := None |}.

(** The items of an update that only assign a field of the bottle. *)
Definition plain_item (i : Item) : Prop :=
  match i with
  | I_resin_id _ | I_remaining_weight _ => False
  | _ => True
  end.

(** The number of frames of the peer that the liveness loop answers: the
    non-empty text frames before the first disconnect. *)
Fixpoint answered (incoming : list Incoming) : nat :=
  match incoming with
  | [] => 0
  | Text s :: rest => ((if String.eqb s "" then 0 else 1) + answered rest)%nat
  | WebSocketDisconnect :: _ => 0
  end.

(** The peer disconnects. *)
Fixpoint hangs_up (incoming : list Incoming) : bool :=
  match incoming with
  | [] => false
  | Text _ :: rest => hangs_up rest
  | WebSocketDisconnect :: _ => true
  end.

(** The mutating requests on bottles, as the endpoints receive them. *)
Inductive Request :=
| Create (body : BottleApi.BottleParameters)
| Update (bottle_id : Z) (body : BottleApi.BottleUpdateParameters)
| Use (bottle_id : Z) (body : BottleApi.BottleUseParameters).

Definition handler (req : Request) : M Response :=
  match req with
  | Create body => validated BottleApi.BottleParameters_valid BottleApi.create body
  | Update bottle_id body =>
      validated BottleApi.BottleUpdateParameters_valid (BottleApi.update bottle_id) body
  | Use bottle_id body => validated (λ _, true) (BottleApi.use bottle_id) body
  end.

Definition run (commit_on_exit : bool) (reqs : list Request) (w : World) : World :=
  fold_left (λ w req, (serve commit_on_exit (handler req) w).2) reqs w.

(** ** Example data *)

Module Examples.

Definition resin1 : ResinRow :=
  {| r_id := 1; r_registered := 0; r_name := Some "Grey"%string;
     r_vendor_id := None; r_material := None; r_price := None;
     r_density := 1.24%Q; r_diameter := 1.75%Q; r_weight := Some 1000%Q;
     r_bottle_weight := None; r_article_number := None; r_comment := None;
     r_cure_temp := None; r_cure_time := None; r_wash_time := None;
     r_color_hex := Some "FF0000"%string |}.

Definition bottle1 : BottleRow :=
  {| b_id := 1; b_registered := 0; b_resin_id := 1; b_used_weight := Some 5%Q;
     b_first_used := None; b_last_used := None; b_location := None;
     b_lot_nr := None; b_comment := None; b_archived := None |}.

Definition store1 : Store :=
  {| vendors := ∅; resins := {[ 1 := resin1 ]}; bottles := {[ 1 := bottle1 ]} |}.

(** One connection listens to all bottles, one to bottle 1, one to
    bottle 2. *)
Definition world1 : World :=
  {| committed := store1; session := store1; now := 100;
     connections :=
       Ws.connect ["bottle"; "2"]%string 9%positive
         (Ws.connect ["bottle"; "1"]%string 8%positive
            (Ws.connect ["bottle"]%string 7%positive ∅));
     published := []; outbox := [] |}.

(** A bottle created over-full, bottle 1 consumed by a negative weight,
    the new bottle corrected to 300 g remaining, and a request to consume
    from it by length. *)
Definition requests : list Request :=
  [Create {| BottleApi.first_used := None; BottleApi.last_used := None;
             BottleApi.resin_id := 1; BottleApi.remaining_weight := Some 1200%Q;
             BottleApi.used_weight := None; BottleApi.location := None;
             BottleApi.lot_nr := None; BottleApi.comment := None;
             BottleApi.archived := false |};
   Use 1 {| BottleApi.use_length := None; BottleApi.use_weight := Some (-50)%Q |};
   Update 2 {| BottleApi.upd_first_used := None; BottleApi.upd_last_used := None;
               BottleApi.upd_resin_id := None;
               BottleApi.upd_remaining_weight := Some (Some 300%Q);
               BottleApi.upd_used_weight := None; BottleApi.upd_location := None;
               BottleApi.upd_lot_nr := None; BottleApi.upd_comment := None;
               BottleApi.upd_archived := None |};
   Use 2 {| BottleApi.use_length := Some 2.2%Q; BottleApi.use_weight := None |}].

(** A script that is not in the sources, for comparison: the used-quantity
    is read in one round trip, and the value the coroutine computes from it
    is written in a second one. *)
Definition read_then_write (bottle_id : Z) (weight : Q) : Script :=
  Fetch (λ s,
    Execute
      (set_bottles
         (alter (with_used_weight (case_used_weight weight (used_weight_of s bottle_id)))
                bottle_id))
      Finished).

(** An update that sets nothing, and one that sets only its arguments. *)
Definition empty_update : BottleApi.BottleUpdateParameters :=
  {| BottleApi.upd_first_used := None; BottleApi.upd_last_used := None;
     BottleApi.upd_resin_id := None; BottleApi.upd_remaining_weight := None;
     BottleApi.upd_used_weight := None; BottleApi.upd_location := None;
     BottleApi.upd_lot_nr := None; BottleApi.upd_comment := None;
     BottleApi.upd_archived := None |}.

Definition resin2 : ResinRow :=
  {| r_id := 2; r_registered := 0; r_name := Some "Clear"%string;
     r_vendor_id := None; r_material := None; r_price := None;
     r_density := 1.1%Q; r_diameter := 1.75%Q; r_weight := Some 500%Q;
     r_bottle_weight := None; r_article_number := None; r_comment := None;
     r_cure_temp := None; r_cure_time := None; r_wash_time := None;
     r_color_hex := None |}.

(** The example store with a second resin that no bottle uses. *)
Definition world2 : World :=
  {| committed := set_resins <[2 := resin2]> store1;
     session := set_resins <[2 := resin2]> store1; now := 100;
     connections := ∅; published := []; outbox := [] |}.

End Examples.

(** * Properties *)

(** ** Arithmetic of the clamp *)

Lemma py_max_Qmax (a : Q) : (py_max a 0 == Qmax a 0)%Q.
Proof.
  unfold py_max. destruct (Qle_bool 0 a) eqn:E.
  - apply Qle_bool_iff in E. symmetry. apply Q.max_l. exact E.
  - assert (H : (a < 0)%Q).
    { apply Qnot_le_lt. intros H. apply Qle_bool_iff in H. congruence. }
    symmetry. apply Q.max_r. apply Qlt_le_weak. exact H.
Qed.

Lemma py_max_nonneg (a : Q) : (0 <= py_max a 0)%Q.
Proof. rewrite py_max_Qmax. apply Q.le_max_r. Qed.

Lemma clamp_add_Qmax (u d : Q) : (clamp_add u d == Qmax (u + d) 0)%Q.
Proof.
  unfold clamp_add. destruct (Qle_bool 0 (u + d)) eqn:E.
  - apply Qle_bool_iff in E. symmetry. apply Q.max_l. exact E.
  - assert (H : (u + d < 0)%Q).
    { apply Qnot_le_lt. intros H. apply Qle_bool_iff in H. congruence. }
    symmetry. apply Q.max_r. apply Qlt_le_weak. exact H.
Qed.

Lemma clamp_add_nonneg (u d : Q) : (0 <= clamp_add u d)%Q.
Proof. rewrite clamp_add_Qmax. apply Q.le_max_r. Qed.

Lemma case_used_weight_Some (d u : Q) :
  case_used_weight d (Some u) = Some (clamp_add u d).
Proof. unfold case_used_weight, clamp_add. by destruct (Qle_bool 0 (u + d)). Qed.

Lemma case_used_weight_nonneg (d : Q) (o : option Q) (u : Q) :
  case_used_weight d o = Some u → (0 <= u)%Q.
Proof.
  destruct o as [u0|].
  - rewrite case_used_weight_Some. intros [= <-]. apply clamp_add_nonneg.
  - simpl. intros [= <-]. apply Qle_refl.
Qed.

Lemma used_weight_of_update (bottle_id : Z) (d : Q) (s : Store) (u : Q) :
  used_weight_of s bottle_id = Some u →
  used_weight_of (update_used_weight bottle_id d s) bottle_id = Some (clamp_add u d).
Proof.
  unfold used_weight_of, update_used_weight. simpl.
  rewrite lookup_alter_eq.
  destruct (bottles s !! bottle_id) as [b|]; simpl; [|done].
  intros ->. apply case_used_weight_Some.
Qed.

Lemma used_weight_of_interleaved (bottle_id : Z) (ds : list Q) (s : Store) (u : Q) :
  used_weight_of s bottle_id = Some u →
  used_weight_of (interleaved bottle_id ds s) bottle_id = Some (fold_left clamp_add ds u).
Proof.
  revert s u. induction ds as [|d ds IH]; intros s u Hu; simpl; [done|].
  apply IH. by apply used_weight_of_update.
Qed.

Lemma fold_clamp_nonneg (ds : list Q) (c s : Q) :
  Forall (λ d, (0 <= d)%Q) ds → (0 <= s)%Q → (c == s)%Q →
  (fold_left clamp_add ds c == fold_left Qplus ds s)%Q
  ∧ (0 <= fold_left Qplus ds s)%Q.
Proof.
  intros Hds. revert c s.
  induction Hds as [|d ds Hd _ IH]; intros c s Hs Hc; simpl; [done|].
  apply IH; [lra|].
  rewrite clamp_add_Qmax. rewrite Q.max_l; lra.
Qed.

Lemma fold_clamp_nonpos (ds : list Q) (c s : Q) :
  Forall (λ d, (d <= 0)%Q) ds → (c == Qmax s 0)%Q →
  (fold_left clamp_add ds c == Qmax (fold_left Qplus ds s) 0)%Q.
Proof.
  intros Hds. revert c s.
  induction Hds as [|d ds Hd _ IH]; intros c s Hc; simpl; [exact Hc|].
  apply IH. rewrite clamp_add_Qmax.
  destruct (Q.max_spec s 0) as [[H1 H2]|[H1 H2]]; rewrite H2 in Hc.
  - rewrite !Q.max_r; lra.
  - apply Q.max_compat; lra.
Qed.

(** The clamped additions of deltas of one sign, run in the order given, end
    at the clamp of the sum taken in that order. *)
Lemma fold_clamp_same_sign (ds : list Q) (u : Q) :
  (0 <= u)%Q →
  Forall (λ d, (0 <= d)%Q) ds ∨ Forall (λ d, (d <= 0)%Q) ds →
  (fold_left clamp_add ds u == Qmax (fold_left Qplus ds u) 0)%Q.
Proof.
  intros Hu [Hs|Hs].
  - destruct (fold_clamp_nonneg ds u u Hs Hu (Qeq_refl u)) as [-> H].
    symmetry. by apply Q.max_l.
  - apply fold_clamp_nonpos; [done|]. symmetry. by apply Q.max_l.
Qed.

(** ** Consume by weight *)

(** *** Calls that run at the same time *)

Lemma sessions_of_nil (bottle_id : Z) (ds : list Q) :
  sessions_of bottle_id ds [] = BottleDb.use_weight_safe_script bottle_id <$> ds.
Proof.
  apply list_eq. intros i. unfold sessions_of.
  rewrite list_lookup_imap, list_lookup_fmap. by destruct (ds !! i).
Qed.

Lemma sessions_of_seen (bottle_id : Z) (ds : list Q) (seen : list nat) (i : nat) :
  <[i := Finished]> (sessions_of bottle_id ds seen) = sessions_of bottle_id ds (i :: seen).
Proof.
  apply list_eq. intros j. unfold sessions_of.
  destruct (decide (i = j)) as [<-|Hne].
  - rewrite list_lookup_imap. destruct (ds !! i) as [d|] eqn:E; simpl.
    + rewrite list_lookup_insert_eq
        by (rewrite length_imap; by eapply lookup_lt_Some).
      rewrite bool_decide_eq_true_2; [done|]. apply list_elem_of_here.
    + apply lookup_ge_None_2. rewrite length_insert, length_imap.
      by apply lookup_ge_None_1.
  - rewrite list_lookup_insert_ne by done. rewrite !list_lookup_imap.
    destruct (ds !! j) as [d|]; simpl; [|done].
    f_equal. rewrite (bool_decide_ext (j ∈ i :: seen) (j ∈ seen)); [done|].
    rewrite elem_of_cons. split; [|by right].
    intros [Hj|Hj]; [congruence|done].
Qed.

(** One round trip of session [i] among the calls: when the session has not
    run, the store runs its UPDATE on the row as it is now. *)
Lemma step_session_scripts (bottle_id : Z) (ds : list Q) (seen : list nat) (i : nat)
    (s : Store) :
  step_session i (sessions_of bottle_id ds seen, s)
  = if bool_decide (i ∈ seen) then (sessions_of bottle_id ds seen, s)
    else (sessions_of bottle_id ds (i :: seen),
          match ds !! i with
          | Some d => update_used_weight bottle_id d s
          | None => s
          end).
Proof.
  unfold step_session. simpl. unfold sessions_of at 1.
  rewrite list_lookup_imap. destruct (ds !! i) as [d|] eqn:E; simpl.
  - case_bool_decide; [done|]. simpl. by rewrite sessions_of_seen.
  - case_bool_decide; [done|]. rewrite <- sessions_of_seen.
    rewrite list_insert_ge; [done|]. unfold sessions_of. rewrite length_imap.
    by apply lookup_ge_None_1.
Qed.

(** Whatever the schedule, the store ends as if the calls that ran had run
    one after the other, in the order of the schedule. *)
Lemma run_schedule_scripts (bottle_id : Z) (ds : list Q) (schedule seen : list nat)
    (s : Store) :
  run_schedule schedule (sessions_of bottle_id ds seen, s)
  = (sessions_of bottle_id ds (seen_after schedule seen),
     interleaved bottle_id (omap (λ i, ds !! i) (run_order schedule seen)) s).
Proof.
  revert seen s. induction schedule as [|i rest IH]; intros seen s; [done|].
  unfold run_schedule, seen_after in *. simpl.
  rewrite step_session_scripts. case_bool_decide; [apply IH|].
  rewrite IH. simpl. by destruct (ds !! i).
Qed.

Lemma run_order_spec (schedule seen : list nat) :
  NoDup (run_order schedule seen)
  ∧ (∀ i, i ∈ run_order schedule seen → i ∉ seen)
  ∧ (∀ i, i ∈ seen_after schedule seen ↔ i ∈ seen ∨ i ∈ run_order schedule seen).
Proof.
  revert seen. induction schedule as [|i rest IH]; intros seen.
  - split; [constructor|]. split; [by intros i Hi; apply elem_of_nil in Hi|].
    intros i. simpl. rewrite elem_of_nil. tauto.
  - unfold seen_after in *. simpl. case_bool_decide as Hi; [apply IH|].
    destruct (IH (i :: seen)) as (Hnd & Hout & Hiff).
    split; [|split].
    + constructor; [|done]. intros Hin. apply (Hout i Hin), list_elem_of_here.
    + intros j Hj. apply elem_of_cons in Hj as [->|Hj]; [done|].
      intros Hs. apply (Hout j Hj). by apply elem_of_cons; right.
    + intros j. rewrite Hiff, !elem_of_cons. tauto.
Qed.

Lemma omap_lookup_seq {A} (pre l : list A) :
  omap (λ i, (pre ++ l) !! i) (seq (length pre) (length l)) = l.
Proof.
  revert pre. induction l as [|x l IH]; intros pre; [done|].
  simpl. rewrite list_lookup_middle by done. f_equal.
  specialize (IH (pre ++ [x])).
  rewrite <- app_assoc, length_app in IH. simpl in IH.
  by rewrite Nat.add_1_r in IH.
Qed.

Lemma omap_None {A B} (f : A → option B) (l : list A) :
  (∀ x, x ∈ l → f x = None) → omap f l = [].
Proof.
  induction l as [|x l IH]; intros H; [done|]. simpl.
  rewrite (H x (list_elem_of_here _ _)). apply IH. intros y Hy. apply H.
  by apply elem_of_cons; right.
Qed.

(** Sessions that each ran once, all of them: every delta, once. *)
Lemma run_order_complete {A} (ds : list A) (l : list nat) :
  NoDup l → (∀ i, (i < length ds)%nat → i ∈ l) → omap (λ i, ds !! i) l ≡ₚ ds.
Proof.
  intros Hnd Hall.
  assert (Hout : omap (λ i, ds !! i) (filter (λ i, ¬ (i < length ds)%nat) l) = []).
  { apply omap_None. intros i Hi. apply list_elem_of_filter in Hi as [Hi _].
    apply lookup_ge_None_2. lia. }
  assert (Hin : filter (λ i, (i < length ds)%nat) l ≡ₚ seq 0 (length ds)).
  { apply NoDup_Permutation; [by apply NoDup_filter|apply NoDup_seq|].
    intros i. rewrite list_elem_of_filter, elem_of_seq. split.
    - intros [Hi _]. lia.
    - intros [_ Hi]. split; [lia|]. apply Hall. lia. }
  rewrite <- (filter_app_complement (λ i, (i < length ds)%nat) l).
  rewrite omap_app, Hout, app_nil_r, Hin.
  apply (reflexive_eq _ _ (omap_lookup_seq [] ds)).
Qed.

Lemma finished_seen (bottle_id : Z) (ds : list Q) (seen : list nat) :
  Forall (λ p, p = Finished) (sessions_of bottle_id ds seen) →
  ∀ i, (i < length ds)%nat → i ∈ seen.
Proof.
  intros Hfin i Hi. apply lookup_lt_is_Some_2 in Hi as [d Hd].
  rewrite Forall_lookup in Hfin. specialize (Hfin i).
  unfold sessions_of in Hfin. rewrite list_lookup_imap, Hd in Hfin. simpl in Hfin.
  case_bool_decide; [done|]. by specialize (Hfin _ eq_refl).
Qed.

(** C1, as amended.  [use_weight_safe] makes one round trip, the UPDATE, which
    sets the used-quantity to max(used + d, 0) of the value the row has when
    the store runs it.  When calls with deltas d1 ... dN run at the same time,
    then whatever the schedule the store ends as if the calls that ran had
    run one after the other in the order of the schedule: the used-quantity
    is the result of the clamped additions u -> max(u + di, 0) in that order,
    and once all calls have finished every delta has been applied exactly
    once.  When U0 is non-negative and the deltas all have one sign, that
    result is max(U0 + the deltas added in that order, 0). *)
Theorem use_weight_safe_no_update_lost (bottle_id : Z) (s : Store) (u0 : Q) :
  used_weight_of s bottle_id = Some u0 →
  (∀ d w, in_session (BottleDb.use_weight_safe_script bottle_id d) w
          = BottleDb.use_weight_safe bottle_id d w)
  ∧ (∀ d, ∃ u, used_weight_of (update_used_weight bottle_id d s) bottle_id = Some u
               ∧ (u == Qmax (u0 + d) 0)%Q)
  ∧ (∀ ds schedule,
       let after :=
         run_schedule schedule (BottleDb.use_weight_safe_script bottle_id <$> ds, s) in
       let order := omap (λ i, ds !! i) (run_order schedule []) in
       after.2 = interleaved bottle_id order s
       ∧ used_weight_of after.2 bottle_id = Some (fold_left clamp_add order u0)
       ∧ (Forall (λ p, p = Finished) after.1 → order ≡ₚ ds)
       ∧ ((0 <= u0)%Q →
          Forall (λ d, (0 <= d)%Q) ds ∨ Forall (λ d, (d <= 0)%Q) ds →
          (fold_left clamp_add order u0 == Qmax (fold_left Qplus order u0) 0)%Q)).
Proof.
  intros Hu. split; [done|]. split.
  - intros d. exists (clamp_add u0 d). split.
    + by apply used_weight_of_update.
    + apply clamp_add_Qmax.
  - intros ds schedule after order.
    assert (Hrun : after = (sessions_of bottle_id ds (seen_after schedule []),
                            interleaved bottle_id order s)).
    { subst after order. rewrite <- sessions_of_nil. apply run_schedule_scripts. }
    rewrite Hrun. simpl. split; [done|].
    split; [by apply used_weight_of_interleaved|]. split.
    + intros Hfin. destruct (run_order_spec schedule []) as (Hnd & _ & Hiff).
      apply run_order_complete; [done|]. intros i Hi.
      apply (finished_seen _ _ _ Hfin), Hiff in Hi as [Hi|Hi]; [|done].
      by apply elem_of_nil in Hi.
    + intros H0 Hsign. apply fold_clamp_same_sign; [done|].
      assert (Hsub : ∀ P : Q → Prop, Forall P ds → Forall P order).
      { intros P HP. apply Forall_forall. intros d Hd.
        apply list_elem_of_omap in Hd as (i & _ & Hi).
        rewrite Forall_lookup in HP. by eapply HP. }
      destruct Hsign as [Hs|Hs]; [left|right]; by apply Hsub.
Qed.

Lemma use_weight_safe_no_update_lost_witness :
  used_weight_of
    (run_schedule [1; 0]%nat
       (BottleDb.use_weight_safe_script 1 <$> [3%Q; 4%Q], Examples.store1)).2 1
  = Some (fold_left clamp_add [4%Q; 3%Q] 5%Q)
  ∧ [4%Q; 3%Q] ≡ₚ [3%Q; 4%Q].
Proof.
  destruct (proj2 (proj2 (use_weight_safe_no_update_lost 1 Examples.store1 5%Q eq_refl))
              [3%Q; 4%Q] [1; 0]%nat) as (_ & Hused & Hall & _).
  split; [exact Hused|]. apply Hall. by repeat constructor.
Defined.

(** A script that reads and then writes is the same as [use_weight_safe] when
    it runs alone, and loses an update when two of them run at the same time:
    from 5, two additions of 10 leave 15.  The two calls of [use_weight_safe]
    leave 25 under the same schedule. *)
Example read_then_write_loses_an_update :
  in_session (Examples.read_then_write 1 10) Examples.world1
  = BottleDb.use_weight_safe 1 10 Examples.world1
  ∧ used_weight_of
      (run_schedule [0; 1; 0; 1]%nat
         ([Examples.read_then_write 1 10; Examples.read_then_write 1 10],
          Examples.store1)).2 1
    = Some 15%Q
  ∧ used_weight_of
      (run_schedule [0; 1; 0; 1]%nat
         (BottleDb.use_weight_safe_script 1 <$> [10%Q; 10%Q], Examples.store1)).2 1
    = Some 25%Q.
Proof. split; [reflexivity|]. split; reflexivity. Qed.

(** C1 as stated fails: from a used-quantity of 5, the deltas -10 and 10 run in
    that order leave 10, and not max(5 + (-10 + 10), 0) = 5. *)
Lemma use_weight_safe_interleaving_counterexample :
  used_weight_of (interleaved 1 [(-10)%Q; 10%Q] Examples.store1) 1 = Some 10%Q
  ∧ used_weight_of Examples.store1 1 = Some 5%Q
  ∧ ¬ (10 == Qmax (5 + total [(-10)%Q; 10%Q]) 0)%Q.
Proof.
  split; [reflexivity|]. split; [reflexivity|].
  intros H. vm_compute in H. discriminate H.
Qed.

(** ** Integrity of the store *)

Lemma forallb_values {V} (P : V → bool) (m : gmap Z V) :
  forallb P (map_to_list m).*2 = true ↔ ∀ k v, m !! k = Some v → P v = true.
Proof.
  rewrite forallb_forall. split.
  - intros H k v Hkv. apply H, list_elem_of_In.
    apply (list_elem_of_fmap_2' snd _ (k, v)); [|done].
    by apply elem_of_map_to_list.
  - intros H v Hv. apply list_elem_of_In, list_elem_of_fmap in Hv.
    destruct Hv as ([k v'] & -> & Hkv). apply elem_of_map_to_list in Hkv.
    by apply (H k).
Qed.

Lemma integrity_ok_spec (s : Store) :
  integrity_ok s = true ↔
  (∀ k b, bottles s !! k = Some b →
          is_Some (resins s !! b_resin_id b) ∧ is_Some (b_used_weight b))
  ∧ (∀ k r v, resins s !! k = Some r → r_vendor_id r = Some v →
              is_Some (vendors s !! v)).
Proof.
  unfold integrity_ok. rewrite andb_true_iff, !forallb_values. split.
  - intros [Hb Hr]. split.
    + intros k b Hkb. specialize (Hb k b Hkb).
      apply andb_true_iff in Hb as [H1 H2].
      split; by eapply bool_decide_eq_true_1.
    + intros k r v Hkr Hv. specialize (Hr k r Hkr). rewrite Hv in Hr.
      by eapply bool_decide_eq_true_1.
  - intros [Hb Hr]. split.
    + intros k b Hkb. destruct (Hb k b Hkb) as [H1 H2].
      apply andb_true_iff. split; by apply bool_decide_eq_true_2.
    + intros k r Hkr. destruct (r_vendor_id r) as [v|] eqn:Hv; [|done].
      apply bool_decide_eq_true_2. by eapply Hr.
Qed.

Lemma integrity_ok_insert_bottle (s : Store) (id : Z) (b : BottleRow) :
  integrity_ok s = true →
  is_Some (resins s !! b_resin_id b) → is_Some (b_used_weight b) →
  integrity_ok (set_bottles <[id := b]> s) = true.
Proof.
  rewrite !integrity_ok_spec. intros [Hb Hr] H1 H2. split; [|exact Hr].
  intros k b'. simpl. rewrite lookup_insert.
  case_decide; [intros [= <-]; done|]. apply Hb.
Qed.

(** ** Running coroutines *)

Lemma bind_Ok {A B} (m : M A) (k : A → M B) (w w' : World) (a : A) :
  m w = (Ok a, w') → bind m k w = k a w'.
Proof. unfold bind. by intros ->. Qed.

Lemma bind_Raise {A B} (m : M A) (k : A → M B) (w w' : World) (e : exn) :
  m w = (Raise e, w') → bind m k w = (Raise e, w').
Proof. unfold bind. by intros ->. Qed.

Lemma resin_get_by_id_Some (w : World) (resin_id : Z) (resin : ResinRow) :
  resins (session w) !! resin_id = Some resin →
  ResinDb.get_by_id resin_id w = (Ok resin, w).
Proof. intros H. unfold ResinDb.get_by_id, bind, db_read. by rewrite H. Qed.

Lemma resin_get_by_id_None (w : World) (resin_id : Z) :
  resins (session w) !! resin_id = None →
  ∃ msg, ResinDb.get_by_id resin_id w = (Raise (ItemNotFoundError msg), w).
Proof. intros H. unfold ResinDb.get_by_id, bind, db_read. rewrite H. by eexists. Qed.

Lemma bottle_get_by_id_Some (w : World) (bottle_id : Z) (bottle : BottleRow) :
  bottles (session w) !! bottle_id = Some bottle →
  BottleDb.get_by_id bottle_id w = (Ok bottle, w).
Proof. intros H. unfold BottleDb.get_by_id, bind, db_read. by rewrite H. Qed.

Lemma bottle_get_by_id_None (w : World) (bottle_id : Z) :
  bottles (session w) !! bottle_id = None →
  ∃ msg, BottleDb.get_by_id bottle_id w = (Raise (ItemNotFoundError msg), w).
Proof. intros H. unfold BottleDb.get_by_id, bind, db_read. rewrite H. by eexists. Qed.

Lemma db_commit_Ok (w : World) :
  integrity_ok (session w) = true →
  db_commit w = (Ok tt, {| committed := session w; session := session w; now := now w;
                           connections := connections w; published := published w;
                           outbox := outbox w |}).
Proof. intros H. unfold db_commit. by rewrite H. Qed.

Lemma db_commit_Raise (w : World) :
  integrity_ok (session w) = false → db_commit w = (Raise IntegrityError, w).
Proof. intros H. unfold db_commit. by rewrite H. Qed.

(** ** Creating a bottle *)

Lemma create_runs (w : World) (resin_id : Z) (resin : ResinRow)
    (remaining_weight used_weight : option Q) (u : Q)
    (first_used last_used : option datetime)
    (location lot_nr comment : option string) (archived : bool) :
  resins (session w) !! resin_id = Some resin →
  integrity_ok (session w) = true →
  match used_weight with
  | Some x => Some x
  | None =>
      match remaining_weight with
      | Some r => (λ c, py_max (c - r) 0) <$> r_weight resin
      | None => Some 0%Q
      end
  end = Some u →
  ∃ b w', BottleDb.create resin_id remaining_weight used_weight first_used
            last_used location lot_nr comment archived w = (Ok b, w')
          ∧ b_used_weight b = Some u
          ∧ bottles (committed w') !! b_id b = Some b
          ∧ session w' = committed w'.
Proof.
  intros Hr Hok Hu. unfold BottleDb.create.
  erewrite bind_Ok by (by apply resin_get_by_id_Some).
  erewrite (bind_Ok _ _ w w u); cycle 1.
  { destruct used_weight as [x|]; [by injection Hu as ->|].
    destruct remaining_weight as [r|]; [|by injection Hu as <-].
    destruct (r_weight resin) as [c|]; [|done]. by injection Hu as <-. }
  erewrite bind_Ok by reflexivity.
  erewrite bind_Ok by reflexivity.
  erewrite bind_Ok by reflexivity.
  erewrite bind_Ok; cycle 1.
  { apply db_commit_Ok. simpl.
    apply integrity_ok_insert_bottle; [done|simpl; by rewrite Hr|done]. }
  erewrite bind_Ok by reflexivity.
  eexists _, _. split; [reflexivity|]. simpl.
  split; [done|]. split; [|done]. apply lookup_insert_eq.
Qed.

(** C2.  Creating a bottle with a remaining quantity R, and no used quantity,
    of a resin with declared weight C gives the used-quantity max(C - R, 0);
    creating it with neither gives the used-quantity 0. *)
Theorem create_used_weight (w : World) (resin_id : Z) (resin : ResinRow)
    (first_used last_used : option datetime)
    (location lot_nr comment : option string) (archived : bool) :
  resins (session w) !! resin_id = Some resin →
  integrity_ok (session w) = true →
  (∀ R C, r_weight resin = Some C →
     ∃ b w' u, BottleDb.create resin_id (Some R) None first_used last_used
                 location lot_nr comment archived w = (Ok b, w')
               ∧ bottles (committed w') !! b_id b = Some b
               ∧ b_used_weight b = Some u ∧ (u == Qmax (C - R) 0)%Q)
  ∧ (∃ b w', BottleDb.create resin_id None None first_used last_used
               location lot_nr comment archived w = (Ok b, w')
             ∧ bottles (committed w') !! b_id b = Some b
             ∧ b_used_weight b = Some 0%Q).
Proof.
  intros Hr Hok. split.
  - intros R C HC.
    destruct (create_runs w resin_id resin (Some R) None (py_max (C - R) 0)
                first_used last_used location lot_nr comment archived Hr Hok)
      as (b & w' & Hc & Hu & Hb & _); [by rewrite HC|].
    exists b, w', (py_max (C - R) 0). repeat split; try done. apply py_max_Qmax.
  - destruct (create_runs w resin_id resin None None 0%Q
                first_used last_used location lot_nr comment archived Hr Hok)
      as (b & w' & Hc & Hu & Hb & _); [done|].
    by exists b, w'.
Qed.

Lemma create_used_weight_witness :
  ∃ b w' u, BottleDb.create 1 (Some 1200%Q) None None None None None None false
              Examples.world1 = (Ok b, w')
            ∧ bottles (committed w') !! b_id b = Some b
            ∧ b_used_weight b = Some u ∧ (u == Qmax (1000 - 1200) 0)%Q.
Proof.
  exact (proj1 (create_used_weight Examples.world1 1 Examples.resin1
                  None None None None None false eq_refl eq_refl)
               1200%Q 1000%Q eq_refl).
Defined.

(** ** The used-quantity is never negative *)

Section Preservation.

Lemma preserves_ret {A} (a : A) : preserves (ret a).
Proof. by intros w H. Qed.

Lemma preserves_raise {A} (e : exn) : preserves (@raise A e).
Proof. by intros w H. Qed.

Lemma preserves_lift {A} (r : res A) : preserves (lift r).
Proof. by intros w H. Qed.

Lemma preserves_bind {A B} (m : M A) (k : A → M B) :
  preserves m → (∀ a, preserves (k a)) → preserves (bind m k).
Proof.
  intros Hm Hk w H. unfold bind. specialize (Hm w H).
  destruct (m w) as [[a|e] w']; simpl in *; [by apply Hk|done].
Qed.

Lemma preserves_db_read {A} (f : Store → A) : preserves (db_read f).
Proof. by intros w H. Qed.

Lemma preserves_utcnow : preserves utcnow.
Proof. by intros w H. Qed.

Lemma preserves_db_write (f : Store → Store) :
  (∀ s, used_nonneg s → used_nonneg (f s)) → preserves (db_write f).
Proof. intros Hf w [Hc Hs]. split; simpl; [done|by apply Hf]. Qed.

Lemma preserves_db_commit : preserves db_commit.
Proof.
  intros w [Hc Hs]. unfold db_commit.
  destruct (integrity_ok (session w)); simpl; by split.
Qed.

Lemma preserves_db_rollback : preserves db_rollback.
Proof. intros w [Hc Hs]. by split. Qed.

Lemma preserves_websocket_send (pool : list string) (evt : Event) :
  preserves (websocket_send pool evt).
Proof. intros w [Hc Hs]. by split. Qed.

Lemma preserves_try_except_ItemCreateError {A} (body handler : M A) :
  preserves body → preserves handler →
  preserves (try_except_ItemCreateError body handler).
Proof.
  intros Hb Hh w H. unfold try_except_ItemCreateError. specialize (Hb w H).
  destruct (body w) as [[a|e] w']; simpl in *; [done|].
  destruct e; simpl; try done. by apply Hh.
Qed.

Lemma preserves_for_each {A} (f : A → M unit) (P : A → Prop) (l : list A) :
  (∀ x, P x → preserves (f x)) → Forall P l → preserves (for_each f l).
Proof.
  intros Hf. induction 1 as [|x l Hx _ IH]; simpl; [apply preserves_ret|].
  apply preserves_bind; [by apply Hf|done].
Qed.

Lemma used_nonneg_insert (s : Store) (id : Z) (b : BottleRow) :
  (∀ u, b_used_weight b = Some u → (0 <= u)%Q) →
  used_nonneg s → used_nonneg (set_bottles <[id := b]> s).
Proof.
  intros Hb Hs k b' u. simpl. rewrite lookup_insert.
  case_decide; [intros [= <-]; apply Hb|apply Hs].
Qed.

Lemma used_nonneg_alter (s : Store) (id : Z) (f : BottleRow → BottleRow) :
  (∀ b u, (∀ u0, b_used_weight b = Some u0 → (0 <= u0)%Q) →
          b_used_weight (f b) = Some u → (0 <= u)%Q) →
  used_nonneg s → used_nonneg (set_bottles (alter f id) s).
Proof.
  intros Hf Hs k b' u. simpl. rewrite lookup_alter.
  case_decide as Hk; [|apply Hs]. subst k.
  destruct (bottles s !! id) as [b|] eqn:Hb; simpl; [|done].
  intros [= <-]. apply Hf. intros u0. by apply (Hs id).
Qed.

Lemma preserves_setattr (bottle_id : Z) (f : BottleRow → BottleRow) :
  (∀ b u, (∀ u0, b_used_weight b = Some u0 → (0 <= u0)%Q) →
          b_used_weight (f b) = Some u → (0 <= u)%Q) →
  preserves (BottleDb.setattr bottle_id f).
Proof. intros Hf. apply preserves_db_write. intros s. by apply used_nonneg_alter. Qed.

Lemma preserves_use_weight_safe (bottle_id : Z) (weight : Q) :
  preserves (BottleDb.use_weight_safe bottle_id weight).
Proof.
  apply preserves_db_write. intros s. apply used_nonneg_alter.
  intros b u _. simpl. apply case_used_weight_nonneg.
Qed.

End Preservation.

Ltac preserves_step :=
  match goal with
  | |- preserves (bind _ _) => apply preserves_bind; [|intros ?]
  | |- preserves (ret _) => apply preserves_ret
  | |- preserves (raise _) => apply preserves_raise
  | |- preserves (lift _) => apply preserves_lift
  | |- preserves (db_read _) => apply preserves_db_read
  | |- preserves utcnow => apply preserves_utcnow
  | |- preserves db_commit => apply preserves_db_commit
  | |- preserves db_rollback => apply preserves_db_rollback
  | |- preserves (websocket_send _ _) => apply preserves_websocket_send
  | |- preserves (BottleDb.use_weight_safe _ _) => apply preserves_use_weight_safe
  | |- preserves (try_except_ItemCreateError _ _) =>
      apply preserves_try_except_ItemCreateError
  | |- preserves (match ?x with _ => _ end) => destruct x eqn:?
  end.

Lemma preserves_resin_get_by_id (resin_id : Z) : preserves (ResinDb.get_by_id resin_id).
Proof. unfold ResinDb.get_by_id. repeat preserves_step. Qed.

Lemma preserves_bottle_get_by_id (bottle_id : Z) :
  preserves (BottleDb.get_by_id bottle_id).
Proof. unfold BottleDb.get_by_id. repeat preserves_step. Qed.

Lemma preserves_bottle_changed (b : BottleRow) (typ : EventType) :
  preserves (BottleDb.bottle_changed b typ).
Proof. unfold BottleDb.bottle_changed. repeat preserves_step. Qed.

Lemma preserves_touch (bottle_id : Z) : preserves (BottleDb.touch bottle_id).
Proof.
  unfold BottleDb.touch.
  repeat first
    [ apply preserves_bottle_get_by_id | apply preserves_bottle_changed
    | apply preserves_setattr; intros b u Hb; simpl; apply Hb
    | preserves_step ].
Qed.

Lemma preserves_bind_returns {A B} (m : M A) (P : A → Prop) (k : A → M B) :
  preserves m → returns m P → (∀ a, P a → preserves (k a)) → preserves (bind m k).
Proof.
  intros Hm HP Hk w H. unfold bind. specialize (Hm w H). specialize (HP w).
  destruct (m w) as [[a|e] w']; simpl in *; [|done].
  apply Hk; [by eapply HP|done].
Qed.

Lemma preserves_db_create (resin_id : Z) (remaining_weight used_weight : option Q)
    (first_used last_used : option datetime)
    (location lot_nr comment : option string) (archived : bool) :
  (∀ u, used_weight = Some u → (0 <= u)%Q) →
  preserves (BottleDb.create resin_id remaining_weight used_weight first_used
               last_used location lot_nr comment archived).
Proof.
  intros Hu. unfold BottleDb.create.
  apply preserves_bind; [apply preserves_resin_get_by_id|intros resin].
  apply preserves_bind_returns with (P := λ u, (0 <= u)%Q).
  - repeat preserves_step.
  - intros w u w'. destruct used_weight as [x|].
    { intros [= <- _]. by apply Hu. }
    destruct remaining_weight as [r|]; [|intros [= <- _]; apply Qle_refl].
    destruct (r_weight resin) as [c|]; [|done].
    intros [= <- _]. apply py_max_nonneg.
  - intros u H0.
    repeat first
      [ apply preserves_bottle_changed
      | apply preserves_db_write; intros s; apply used_nonneg_insert;
        simpl; intros ? [= <-]; exact H0
      | preserves_step ].
Qed.

Lemma preserves_bottle_resin (bottle_id : Z) : preserves (BottleDb.bottle_resin bottle_id).
Proof.
  unfold BottleDb.bottle_resin.
  repeat first [ apply preserves_bottle_get_by_id | preserves_step ].
Qed.

Lemma preserves_update_item (bottle_id : Z) (item : Item) :
  item_ok item → preserves (BottleDb.update_item bottle_id item).
Proof.
  intros Hok. destruct item as [v|v|v|v|v|v|v|v|v]; simpl;
    try (destruct v);
    repeat first
      [ apply preserves_resin_get_by_id | apply preserves_bottle_resin
      | apply preserves_setattr; intros b u Hb; simpl;
        first [ apply Hb | intros [= <-]; first [ apply py_max_nonneg | exact Hok ]
              | discriminate ]
      | preserves_step ].
Qed.

Lemma preserves_db_update (bottle_id : Z) (data : list Item) :
  Forall item_ok data → preserves (BottleDb.update bottle_id data).
Proof.
  intros Hdata. unfold BottleDb.update.
  repeat first
    [ apply preserves_bottle_get_by_id | apply preserves_bottle_changed
    | apply (preserves_for_each _ item_ok); [apply preserves_update_item|exact Hdata]
    | preserves_step ].
Qed.

Lemma preserves_use_weight (bottle_id : Z) (weight : Q) :
  preserves (BottleDb.use_weight bottle_id weight).
Proof.
  unfold BottleDb.use_weight.
  repeat first [ apply preserves_touch | preserves_step ].
Qed.

Lemma preserves_use_length (bottle_id : Z) (length : Q) :
  preserves (BottleDb.use_length bottle_id length).
Proof. intros w Hw. exact Hw. Qed.

Lemma ge_0_Some (q : Q) : ge_0 (Some q) = true → (0 <= q)%Q.
Proof. simpl. apply Qle_bool_iff. Qed.

Lemma Forall_omap_id {A} (P : A → Prop) (l : list (option A)) :
  Forall (λ o, ∀ x, o = Some x → P x) l → Forall P (omap id l).
Proof.
  induction 1 as [|o l Ho _ IH]; simpl; [constructor|].
  destruct o as [x|]; simpl; [constructor; auto|done].
Qed.

Lemma dict_exclude_unset_ok (body : BottleApi.BottleUpdateParameters) :
  BottleApi.BottleUpdateParameters_valid body = true →
  Forall item_ok (BottleApi.dict_exclude_unset body).
Proof.
  unfold BottleApi.BottleUpdateParameters_valid. rewrite !andb_true_iff.
  intros [[[[Hr Hu] _] _] _].
  apply Forall_omap_id. repeat constructor.
  all: intros x Hx; apply fmap_Some in Hx as (v & Hv & ->); simpl; try done.
  - rewrite Hv in Hr. destruct v as [q|]; [by apply ge_0_Some|done].
  - rewrite Hv in Hu. destruct v as [q|]; [by apply ge_0_Some|done].
Qed.

Lemma preserves_api_create (body : BottleApi.BottleParameters) :
  BottleApi.BottleParameters_valid body = true → preserves (BottleApi.create body).
Proof.
  unfold BottleApi.BottleParameters_valid. rewrite !andb_true_iff.
  intros [[[[_ Hu] _] _] _]. unfold BottleApi.create.
  repeat first
    [ apply preserves_db_create; intros u Hu'; rewrite Hu' in Hu; by apply ge_0_Some
    | preserves_step ].
Qed.

Lemma preserves_api_update (bottle_id : Z) (body : BottleApi.BottleUpdateParameters) :
  BottleApi.BottleUpdateParameters_valid body = true →
  preserves (BottleApi.update bottle_id body).
Proof.
  intros Hv. unfold BottleApi.update.
  repeat first
    [ apply preserves_db_update; by apply dict_exclude_unset_ok
    | preserves_step ].
Qed.

Lemma preserves_api_use (bottle_id : Z) (body : BottleApi.BottleUseParameters) :
  preserves (BottleApi.use bottle_id body).
Proof.
  unfold BottleApi.use.
  repeat first
    [ apply preserves_use_weight | apply preserves_use_length | preserves_step ].
Qed.

Lemma preserves_validated {Body} (valid : Body → bool) (h : Body → M Response)
    (body : Body) :
  (valid body = true → preserves (h body)) → preserves (validated valid h body).
Proof.
  intros H. unfold validated. destruct (valid body); [by apply H|apply preserves_raise].
Qed.

Lemma preserves_handler (req : Request) : preserves (handler req).
Proof.
  destruct req as [body|bottle_id body|bottle_id body]; simpl;
    apply preserves_validated; intros Hv.
  - by apply preserves_api_create.
  - by apply preserves_api_update.
  - apply preserves_api_use.
Qed.

Lemma serve_nonneg (commit_on_exit : bool) (h : M Response) (w : World) :
  preserves h → used_nonneg (committed w) →
  bottles_nonneg (serve commit_on_exit h w).2.
Proof.
  intros Hh Hc. unfold serve.
  assert (H0 : bottles_nonneg (db_rollback w).2) by (by split).
  specialize (Hh _ H0). destruct (h (db_rollback w).2) as [[r|e] w1]; simpl in Hh.
  - destruct commit_on_exit.
    + pose proof (preserves_db_commit w1 Hh) as H2.
      destruct (db_commit w1) as [[[]|e] w2]; simpl in *; [done|].
      by apply preserves_db_rollback.
    + by apply preserves_db_rollback.
  - by apply preserves_db_rollback.
Qed.

(** C3.  From a store in which no used-quantity is negative, every sequence of
    create, update and consume requests leaves a store in which no
    used-quantity is negative, whether or not the session dependency commits
    on exit. *)
Theorem used_weight_never_negative (commit_on_exit : bool) (reqs : list Request)
    (w : World) :
  used_nonneg (committed w) → used_nonneg (committed (run commit_on_exit reqs w)).
Proof.
  revert w. induction reqs as [|req reqs IH]; intros w Hw; simpl; [done|].
  apply IH. by apply serve_nonneg; [apply preserves_handler|].
Qed.

Lemma used_weight_never_negative_witness :
  used_nonneg (committed (run true Examples.requests Examples.world1)).
Proof.
  apply used_weight_never_negative.
  intros id b u H. simpl in H. apply lookup_singleton_Some in H as [_ <-].
  intros [= <-]. discriminate.
Defined.

(** The example requests are served and change the store: bottle 1 ends at 0
    and the new bottle 2 at 700. *)
Example requests_served :
  (λ req, status_code (serve true (handler req)
                         (run true (take 2 Examples.requests) Examples.world1)).1)
    <$> drop 2 (take 3 Examples.requests) = [200]
  ∧ used_weight_of (committed (run true Examples.requests Examples.world1)) 1
    = Some 0%Q
  ∧ ∃ u, used_weight_of (committed (run true Examples.requests Examples.world1)) 2
         = Some u ∧ (u == 700)%Q.
Proof.
  split; [by vm_compute|]. split; [by vm_compute|].
  eexists. split; [by vm_compute|]. by vm_compute.
Qed.

(** ** Searching *)

(** C4.  [find] of bottle.py returns no page and no count: for every filter,
    sort order, limit and offset it raises [AttributeError] at the load of
    [models.models] in its first statement, before a statement is sent to
    the store, and leaves the world as it is. *)
Theorem bottle_find_raises
    (parse_nested_field : string → res (BottleDb.Joined → BottleDb.Joined → comparison))
    (filters : list (BottleDb.Joined → bool)) (allow_archived : bool)
    (sort_by : option (list (string * SortOrder))) (limit : option Z) (offset : Z)
    (w : World) :
  BottleDb.find parse_nested_field filters allow_archived sort_by limit offset w
  = (Raise (AttributeError "models"), w)
  ∧ ∀ page total w',
      BottleDb.find parse_nested_field filters allow_archived sort_by limit offset w
      ≠ (Ok (page, total), w').
Proof. split; [reflexivity|]. intros page total w'. discriminate. Qed.

(** C10.  Without limit, [find] of bottle.py and [find] of resin.py raise
    [AttributeError] whatever the offset, at the load of [models.models] and
    of [models.R]: the offset has no effect, and no result set is returned,
    neither the full one nor another. *)
Theorem find_without_limit_raises
    (bottle_field : string → res (BottleDb.Joined → BottleDb.Joined → comparison))
    (resin_field : string → res (ResinDb.Joined → ResinDb.Joined → comparison))
    (bottle_filters : list (BottleDb.Joined → bool))
    (resin_filters : list (ResinDb.Joined → bool)) (allow_archived : bool)
    (sort_by : option (list (string * SortOrder))) (offset : Z) (w : World) :
  BottleDb.find bottle_field bottle_filters allow_archived sort_by None offset w
  = (Raise (AttributeError "models"), w)
  ∧ ResinDb.find resin_field resin_filters sort_by None offset w
    = (Raise (AttributeError "R"), w).
Proof. split; reflexivity. Qed.

(** ** Deleting a resin that is in use *)

Lemma integrity_fails_without_resin (s : Store) (resin_id bottle_id : Z)
    (bottle : BottleRow) :
  bottles s !! bottle_id = Some bottle → b_resin_id bottle = resin_id →
  integrity_ok (remove_resin resin_id s) = false.
Proof.
  intros Hb Hr. apply not_true_is_false. rewrite integrity_ok_spec.
  intros [H _]. destruct (H bottle_id bottle Hb) as [[r Hl] _].
  simpl in Hl. rewrite Hr, lookup_delete_eq in Hl. done.
Qed.

(** C5.  Deleting a resin that a bottle still refers to fails as a whole: the
    store rejects the commit, the session is rolled back, [ItemDeleteError]
    is raised and answered with status 403; the store, the events published
    and the frames sent are as before, and the resin can be read back
    unchanged. *)
Theorem delete_resin_in_use_is_blocked (commit_on_exit : bool) (w : World)
    (resin_id bottle_id : Z) (resin : ResinRow) (bottle : BottleRow) :
  integrity_ok (committed w) = true →
  resins (committed w) !! resin_id = Some resin →
  bottles (committed w) !! bottle_id = Some bottle →
  b_resin_id bottle = resin_id →
  let w0 := (db_rollback w).2 in
  ResinDb.delete resin_id w0 = (Raise (ItemDeleteError "Failed to delete resin."), w0)
  ∧ serve commit_on_exit (ResinApi.delete resin_id) w
    = (JSONResponse 403 "Failed to delete resin, see server logs for more information.",
       w0)
  ∧ committed w0 = committed w
  ∧ published w0 = published w
  ∧ outbox w0 = outbox w
  ∧ ResinDb.get_by_id resin_id w0 = (Ok resin, w0).
Proof.
  intros Hok Hr Hb Hfk w0.
  assert (Hget : ResinDb.get_by_id resin_id w0 = (Ok resin, w0))
    by (by apply resin_get_by_id_Some).
  assert (Hdel : ResinDb.delete resin_id w0
                 = (Raise (ItemDeleteError "Failed to delete resin."), w0)).
  { unfold ResinDb.delete.
    erewrite bind_Ok by exact Hget.
    erewrite bind_Ok by reflexivity.
    unfold try_except_IntegrityError.
    erewrite bind_Raise; cycle 1.
    { apply db_commit_Raise. simpl.
      by eapply integrity_fails_without_resin. }
    reflexivity. }
  split; [exact Hdel|]. split; [|done].
  unfold serve. fold w0. unfold ResinApi.delete, try_except_ItemDeleteError.
  erewrite bind_Raise by exact Hdel. simpl.
  destruct commit_on_exit; [|reflexivity].
  rewrite db_commit_Ok by exact Hok. reflexivity.
Qed.

Lemma delete_resin_in_use_is_blocked_witness :
  serve true (ResinApi.delete 1) Examples.world1
  = (JSONResponse 403 "Failed to delete resin, see server logs for more information.",
     (db_rollback Examples.world1).2).
Proof.
  exact (proj1 (proj2 (delete_resin_in_use_is_blocked true Examples.world1 1 1
                         Examples.resin1 Examples.bottle1
                         eq_refl eq_refl eq_refl eq_refl))).
Defined.

(** ** Fan-out of change events *)

Lemma str_inj (a b : Z) : str a = str b → a = b.
Proof.
  unfold str. intros H. apply DecimalZ.to_int_inj.
  apply (f_equal NilZero.int_of_string) in H.
  assert (Hnn : ∀ z, Z.to_int z ≠ Decimal.Pos Decimal.Nil
                     ∧ Z.to_int z ≠ Decimal.Neg Decimal.Nil).
  { intros [|p|p]; simpl; split; try discriminate;
      intros [= Hp]; by apply DecimalPos.Unsigned.to_uint_nonnil in Hp. }
  rewrite !NilZero.isi in H by apply Hnn. by injection H.
Qed.

Lemma receivers_prefix (pool : list string) (m : gmap (list string) (gset Ws.Conn))
    (c : Ws.Conn) :
  c ∈ Ws.receivers pool m ↔ ∃ sub, sub `prefix_of` pool ∧ subscribed m sub c.
Proof.
  unfold Ws.receivers, Ws.subpools, subscribed.
  rewrite list_elem_of_bind. split.
  - intros (sub & Hc & Hsub). apply list_elem_of_fmap in Hsub as (n & -> & _).
    exists (take n pool). split; [apply prefix_take|]. by apply elem_of_elements.
  - intros (sub & [k ->] & Hc). exists sub. split; [by apply elem_of_elements|].
    apply list_elem_of_fmap. exists (length sub). split.
    + by rewrite take_app_length.
    + apply elem_of_seq. rewrite length_app. lia.
Qed.

Lemma connect_subscribed (m : gmap (list string) (gset Ws.Conn))
    (pool : list string) (c : Ws.Conn) :
  subscribed (Ws.connect pool c m) pool c.
Proof.
  unfold subscribed, Ws.connect. rewrite lookup_insert_eq. simpl. set_solver.
Qed.

Lemma disconnect_unsubscribed (m : gmap (list string) (gset Ws.Conn))
    (pool : list string) (c : Ws.Conn) :
  ¬ subscribed (Ws.disconnect pool c m) pool c.
Proof.
  unfold subscribed, Ws.disconnect.
  destruct (m !! pool) as [s|] eqn:E.
  - rewrite lookup_insert_eq. simpl. intros H.
    apply elem_of_difference in H as [_ H]. apply H. by apply elem_of_singleton.
  - rewrite E. simpl. apply not_elem_of_empty.
Qed.

(** C6.  An event for a bottle is published to the topic (bottle, id).  Every
    connection registered under a prefix of that topic, in particular under
    the topic itself or under (bottle,), is sent the event; a connection
    registered only under topics (bottle, j) of other bottles is sent
    nothing. *)
Theorem bottle_changed_fan_out (w : World) (bottle : BottleRow) (typ : EventType)
    (c : Ws.Conn) :
  let r := BottleDb.bottle_changed bottle typ w in
  let evt := {| ev_type := typ; ev_resource := "bottle"; ev_date := now w;
                ev_payload := PBottle bottle |} in
  r.1 = Ok tt
  ∧ published r.2 = published w ++ [(["bottle"; str (b_id bottle)]%string, evt)]
  ∧ (∀ pool, pool `prefix_of` ["bottle"; str (b_id bottle)]%string →
             subscribed (connections w) pool c → (c, Push evt) ∈ outbox r.2)
  ∧ (subscribed (connections w) ["bottle"; str (b_id bottle)]%string c
     ∨ subscribed (connections w) ["bottle"]%string c →
     (c, Push evt) ∈ outbox r.2)
  ∧ ((∀ pool, subscribed (connections w) pool c →
              ∃ j, j ≠ b_id bottle ∧ pool = ["bottle"; str j]%string) →
     ∀ f, (c, f) ∈ outbox r.2 → (c, f) ∈ outbox w).
Proof.
  simpl. split; [done|]. split; [done|].
  assert (Hall : ∀ pool, pool `prefix_of` ["bottle"; str (b_id bottle)]%string →
                   subscribed (connections w) pool c →
                   (c, Push {| ev_type := typ; ev_resource := "bottle";
                               ev_date := now w; ev_payload := PBottle bottle |})
                   ∈ outbox w ++ Ws.send ["bottle"; str (b_id bottle)]%string
                                   {| ev_type := typ; ev_resource := "bottle";
                                      ev_date := now w; ev_payload := PBottle bottle |}
                                   (connections w)).
  { intros pool Hp H. apply elem_of_app. right. unfold Ws.send.
    apply list_elem_of_fmap. eexists. split; [reflexivity|].
    apply receivers_prefix. by exists pool. }
  split; [exact Hall|]. split.
  - intros [H|H]; (eapply Hall; [|exact H]).
    + done.
    + by exists [str (b_id bottle)].
  - intros Honly f Hf. apply elem_of_app in Hf as [Hf|Hf]; [done|]. exfalso.
    unfold Ws.send in Hf. apply list_elem_of_fmap in Hf as (c' & [= <- ->] & Hc).
    apply receivers_prefix in Hc as (sub & Hpre & Hsub).
    destruct (Honly sub Hsub) as (j & Hj & ->).
    destruct Hpre as [k Hk]. injection Hk as Hk _.
    by apply str_inj in Hk.
Qed.

Lemma bottle_changed_fan_out_witness :
  (7%positive,
   Push {| ev_type := UPDATED; ev_resource := "bottle"; ev_date := 100;
           ev_payload := PBottle Examples.bottle1 |})
  ∈ outbox (BottleDb.bottle_changed Examples.bottle1 UPDATED Examples.world1).2
  ∧ ∀ f, (9%positive, f)
         ∈ outbox (BottleDb.bottle_changed Examples.bottle1 UPDATED Examples.world1).2 →
         (9%positive, f) ∈ outbox Examples.world1.
Proof.
  split.
  - refine (proj1 (proj2 (proj2 (proj2 (bottle_changed_fan_out Examples.world1
                                   Examples.bottle1 UPDATED 7%positive)))) _).
    right. unfold subscribed. by vm_compute.
  - refine (proj2 (proj2 (proj2 (proj2 (bottle_changed_fan_out Examples.world1
                                   Examples.bottle1 UPDATED 9%positive)))) _).
    intros pool. unfold subscribed, Examples.world1, Ws.connect. simpl.
    rewrite lookup_insert. case_decide as H1.
    + intros _. exists 2. by split.
    + rewrite lookup_insert. case_decide as H2.
      { rewrite lookup_empty. simpl. set_solver. }
      rewrite lookup_insert. case_decide as H3; [simpl; set_solver|].
      rewrite lookup_empty. simpl. set_solver.
Defined.

(** ** Consuming: exactly one of weight and length *)

(** C8.  A consume request with both a length and a weight, or with neither,
    is answered 400 and nothing has happened: the world is as before.  With
    exactly one of them the handler proceeds to the consume operation. *)
Theorem use_needs_exactly_one (bottle_id : Z) (body : BottleApi.BottleUseParameters)
    (w : World) :
  (is_Some (BottleApi.use_weight body) ∧ is_Some (BottleApi.use_length body) →
   BottleApi.use bottle_id body w
   = (Ok (JSONResponse 400 "Only specify either use_weight or use_length."), w))
  ∧ (BottleApi.use_weight body = None ∧ BottleApi.use_length body = None →
     BottleApi.use bottle_id body w
     = (Ok (JSONResponse 400 "Either use_weight or use_length must be specified."), w))
  ∧ (∀ weight, BottleApi.use_weight body = Some weight →
               BottleApi.use_length body = None →
     BottleApi.use bottle_id body w
     = (do db_item <- BottleDb.use_weight bottle_id weight;
        ret {| status_code := 200; content := CBottle db_item |}) w)
  ∧ (∀ length, BottleApi.use_weight body = None →
               BottleApi.use_length body = Some length →
     BottleApi.use bottle_id body w
     = (do db_item <- BottleDb.use_length bottle_id length;
        ret {| status_code := 200; content := CBottle db_item |}) w).
Proof.
  unfold BottleApi.use. repeat split.
  - intros [[x ->] [l ->]]. reflexivity.
  - intros [-> ->]. reflexivity.
  - intros weight -> ->. reflexivity.
  - intros length -> ->. reflexivity.
Qed.

Lemma use_needs_exactly_one_witness :
  BottleApi.use 1 {| BottleApi.use_length := Some 2.2%Q;
                     BottleApi.use_weight := Some 5.3%Q |} Examples.world1
  = (Ok (JSONResponse 400 "Only specify either use_weight or use_length."),
     Examples.world1).
Proof.
  refine (proj1 (use_needs_exactly_one 1 _ Examples.world1) _).
  split; eexists; reflexivity.
Defined.

(** ** Creating a resin *)

Lemma stateless_bind_fails {A B} (m : M A) (P : A → Prop) (k : A → M B) :
  stateless m → returns m P → (∀ a, P a → fails (k a)) → fails (bind m k).
Proof.
  intros Hm HP Hk w. unfold bind.
  destruct (Hm w) as [[a Ha]|[e He]].
  - rewrite Ha. apply Hk. by eapply HP.
  - rewrite He. by exists e.
Qed.

Lemma stateless_load (globals : list string) (locals : gmap string PyVal) (n : string) :
  stateless (load globals locals n).
Proof.
  intros w. unfold load. destruct (locals !! n); [left; by eexists|].
  case_bool_decide; [left|right]; by eexists.
Qed.

Lemma fails_load (globals : list string) (locals : gmap string PyVal) (n : string) :
  locals !! n = None → n ∉ globals ++ py_builtins → fails (load globals locals n).
Proof.
  intros Hl Hg w. unfold load. rewrite Hl.
  rewrite bool_decide_eq_false_2 by done. by eexists.
Qed.

Lemma bind_kwargs_dom (sig : list (string * option PyVal))
    (kwargs : list (string * PyVal)) (env : gmap string PyVal) (n : string) :
  bind_kwargs sig kwargs = Ok env → n ∉ sig.*1 → env !! n = None.
Proof.
  unfold bind_kwargs. destruct (List.find _ kwargs); [done|].
  revert env. induction sig as [|p sig IH]; intros env; simpl.
  - intros [= <-] _. apply lookup_empty.
  - destruct (fold_right _ _ sig) as [env'|e]; [|done].
    intros Henv Hn. apply not_elem_of_cons in Hn as [Hn1 Hn2].
    specialize (IH env' eq_refl Hn2).
    destruct ((list_to_map kwargs : gmap string PyVal) !! p.1) as [v|], p.2 as [d|];
      try done; injection Henv as <-; by rewrite lookup_insert_ne.
Qed.

Lemma stateless_vendor_get_by_id (vendor_id : Z) :
  stateless (ResinDb.vendor_get_by_id vendor_id).
Proof.
  intros w. unfold ResinDb.vendor_get_by_id, bind, db_read.
  destruct (vendors (session w) !! vendor_id); [left|right]; by eexists.
Qed.

Lemma returns_True {A} (m : M A) : returns m (λ _, True).
Proof. by intros w a w' _. Qed.

(** C7 fails on the code.  [create] of the resin endpoints reads
    [body.settings_cure_temp], which a [ResinParameters] object does not have,
    before it calls the database helper: every creation request is answered
    500, nothing is persisted and no event is published.  The database helper
    itself loads the name [diameter], which is neither a parameter nor a
    global, and [resin_changed] loads [FilamentEvent]: both raise as well. *)
Theorem resin_create_raises (commit_on_exit : bool) (body : ResinApi.ResinParameters)
    (kwargs : list (string * PyVal)) (resin : ResinRow) (typ : EventType) (w : World) :
  ResinApi.create body w = (Raise (AttributeError "settings_cure_temp"), w)
  ∧ (∃ e, ResinDb.create kwargs w = (Raise e, w))
  ∧ ResinDb.resin_changed resin typ w = (Raise (NameError "FilamentEvent"), w)
  ∧ serve commit_on_exit
      (validated ResinApi.ResinParameters_valid ResinApi.create body) w
    = (JSONResponse (if ResinApi.ResinParameters_valid body then 500 else 422)
         (if ResinApi.ResinParameters_valid body then "Internal Server Error"
          else "value is not a valid body"),
       (db_rollback w).2).
Proof.
  assert (H1 : ∀ w, ResinApi.create body w
                    = (Raise (AttributeError "settings_cure_temp"), w))
    by reflexivity.
  split; [apply H1|]. split; [|split; [reflexivity|]].
  - revert w. change (fails (ResinDb.create kwargs)). unfold ResinDb.create.
    apply stateless_bind_fails with (P := λ locals, locals !! "diameter"%string = None).
    { intros w. unfold lift. destruct (bind_kwargs _ _); [left|right]; by eexists. }
    { intros w locals w'. unfold lift. intros [= H _].
      eapply bind_kwargs_dom; [exact H|].
      apply (bool_decide_eq_false_1 _). reflexivity. }
    intros locals Hd. cbv zeta.
    apply stateless_bind_fails with (P := λ _, True);
      [apply stateless_load|apply returns_True|intros vendor_id _].
    apply stateless_bind_fails with (P := λ _, True); [|apply returns_True|intros ? _].
    { intros w. destruct vendor_id as [|v| | |]; try (right; by eexists);
        [left; by eexists|].
      unfold bind. destruct (stateless_vendor_get_by_id v w) as [[a ->]|[e ->]];
        [left|right]; by eexists. }
    do 5 (apply stateless_bind_fails with (P := λ _, True);
          [first [apply stateless_load | intros w; left; by eexists]
          |apply returns_True|intros ? _]).
    intros w. unfold bind.
    assert (Hg : "diameter"%string ∉ ResinDb.module_globals ++ py_builtins)
      by (apply (bool_decide_eq_false_1 _); reflexivity).
    destruct (fails_load ResinDb.module_globals locals "diameter" Hd Hg w) as [e ->].
    by exists e.
  - unfold serve, validated. destruct (ResinApi.ResinParameters_valid body).
    + by rewrite H1.
    + reflexivity.
Qed.

(** ** Search by colour *)

(** The loop of [find_by_color] over the resins it is given. *)
Section ColorSearch.
Context {Lab RGB : Type}.
Variable hex_to_rgb : string → res RGB.
Variable rgb_to_lab : RGB → Lab.
Variable delta_e : Lab → Lab → Q.

Lemma color_loop_monotone (lab : Lab) (t1 t2 : Q) (resins acc1 acc2 : list ResinRow)
    (w : World) :
  (t1 <= t2)%Q → acc1 ⊆ acc2 →
  match (ResinDb.color_loop hex_to_rgb rgb_to_lab delta_e lab t1 resins acc1 w).1,
        (ResinDb.color_loop hex_to_rgb rgb_to_lab delta_e lab t2 resins acc2 w).1 with
  | Ok l1, Ok l2 => l1 ⊆ l2
  | Raise e1, Raise e2 => e1 = e2
  | _, _ => False
  end.
Proof.
  intros Ht. revert acc1 acc2.
  induction resins as [|resin rest IH]; intros acc1 acc2 Hacc; simpl; [done|].
  destruct (r_color_hex resin) as [hex|]; [|by apply IH].
  unfold bind, lift. destruct (hex_to_rgb hex) as [rgb|e]; [|done].
  destruct (Qle_bool (delta_e lab (rgb_to_lab rgb)) t1) eqn:E1.
  - assert (E2 : Qle_bool (delta_e lab (rgb_to_lab rgb)) t2 = true).
    { apply Qle_bool_iff. apply Qle_bool_iff in E1. by eapply Qle_trans. }
    rewrite E2. apply IH. intros x Hx.
    apply elem_of_app in Hx as [Hx|Hx]; apply elem_of_app; [left; by apply Hacc|by right].
  - destruct (Qle_bool (delta_e lab (rgb_to_lab rgb)) t2); apply IH; [|done].
    intros x Hx. apply elem_of_app. left. by apply Hacc.
Qed.

Lemma color_loop_complete (lab : Lab) (t : Q) (resins acc : list ResinRow) (w : World) :
  (∀ r h, r ∈ resins → r_color_hex r = Some h → ∃ rgb, hex_to_rgb h = Ok rgb) →
  ∃ l, ResinDb.color_loop hex_to_rgb rgb_to_lab delta_e lab t resins acc w = (Ok l, w)
       ∧ acc ⊆ l
       ∧ ∀ r h rgb, r ∈ resins → r_color_hex r = Some h → hex_to_rgb h = Ok rgb →
           (delta_e lab (rgb_to_lab rgb) <= t)%Q → r ∈ l.
Proof.
  revert acc. induction resins as [|resin rest IH]; intros acc Hhex; simpl.
  - exists acc. split; [done|]. split; [done|]. intros r h rgb Hr. by apply elem_of_nil in Hr.
  - assert (Hrest : ∀ r h, r ∈ rest → r_color_hex r = Some h →
                           ∃ rgb, hex_to_rgb h = Ok rgb).
    { intros r h Hr. apply Hhex. by apply elem_of_cons; right. }
    destruct (r_color_hex resin) as [hex|] eqn:Ehex.
    + destruct (Hhex resin hex (list_elem_of_here _ _) Ehex) as [rgb Hrgb].
      unfold bind, lift. rewrite Hrgb.
      destruct (Qle_bool (delta_e lab (rgb_to_lab rgb)) t) eqn:E.
      * destruct (IH (acc ++ [resin]) Hrest) as (l & Hl & Hacc & Hall).
        exists l. split; [done|]. split.
        { intros x Hx. apply Hacc, elem_of_app. by left. }
        intros r h rgb' Hr Hh Hrgb' Hd. apply elem_of_cons in Hr as [->|Hr].
        -- apply Hacc, elem_of_app. right. apply list_elem_of_here.
        -- by eapply Hall.
      * destruct (IH acc Hrest) as (l & Hl & Hacc & Hall).
        exists l. split; [done|]. split; [done|].
        intros r h rgb' Hr Hh Hrgb' Hd. apply elem_of_cons in Hr as [->|Hr].
        -- exfalso. rewrite Ehex in Hh. injection Hh as <-.
           rewrite Hrgb in Hrgb'. injection Hrgb' as <-.
           apply Qle_bool_iff in Hd. congruence.
        -- by eapply Hall.
    + destruct (IH acc Hrest) as (l & Hl & Hacc & Hall).
      exists l. split; [done|]. split; [done|].
      intros r h rgb' Hr Hh Hrgb' Hd. apply elem_of_cons in Hr as [->|Hr].
      * congruence.
      * by eapply Hall.
Qed.

End ColorSearch.

(** C9.  [find_by_color] finds nothing: for every colour and threshold it
    raises [AttributeError] in its first statement, the call [find(db=db)],
    which loads [models.R]; the loop over the resins is not reached and the
    world is as before.  So the search fails alike at any two thresholds, and
    a resin of the query colour is not returned at any threshold. *)
Theorem find_by_color_raises {Lab RGB : Type}
    (parse_nested_field : string → res (ResinDb.Joined → ResinDb.Joined → comparison))
    (hex_to_rgb : string → res RGB) (rgb_to_lab : RGB → Lab)
    (delta_e : Lab → Lab → Q) (color_query_hex : string) (similarity_threshold : Q)
    (w : World) :
  ResinDb.find_by_color parse_nested_field hex_to_rgb rgb_to_lab delta_e
    color_query_hex similarity_threshold w
  = (Raise (AttributeError "R"), w)
  ∧ ∀ found w',
      ResinDb.find_by_color parse_nested_field hex_to_rgb rgb_to_lab delta_e
        color_query_hex similarity_threshold w
      ≠ (Ok found, w').
Proof. split; [reflexivity|]. intros found w'. discriminate. Qed.

(** * Further properties of the code *)

(** ** More on the integrity of the store *)

Lemma integrity_ok_alter_bottle (s : Store) (id : Z) (f : BottleRow → BottleRow) :
  (∀ b, b_resin_id (f b) = b_resin_id b) →
  (∀ b, is_Some (b_used_weight b) → is_Some (b_used_weight (f b))) →
  integrity_ok s = true → integrity_ok (set_bottles (alter f id) s) = true.
Proof.
  intros Hr Hu. rewrite !integrity_ok_spec. intros [Hb Hres]. split; [|exact Hres].
  intros k b'. simpl. rewrite lookup_alter. case_decide as Hk; [|apply Hb].
  subst k. destruct (bottles s !! id) as [b|] eqn:E; simpl; [|done].
  intros [= <-]. destruct (Hb id b E) as [H1 H2]. rewrite Hr. split; [done|by apply Hu].
Qed.

Lemma integrity_ok_delete_bottle (s : Store) (id : Z) :
  integrity_ok s = true → integrity_ok (set_bottles (base.delete id) s) = true.
Proof.
  rewrite !integrity_ok_spec. intros [Hb Hres]. split; [|exact Hres].
  intros k b. simpl. rewrite lookup_delete. case_decide; [done|apply Hb].
Qed.

Lemma integrity_ok_remove_resin (s : Store) (resin_id : Z) :
  (∀ k b, bottles s !! k = Some b → b_resin_id b ≠ resin_id) →
  integrity_ok s = true → integrity_ok (remove_resin resin_id s) = true.
Proof.
  intros Hfree. rewrite !integrity_ok_spec. intros [Hb Hres]. split.
  - intros k b Hkb. simpl in *. destruct (Hb k b Hkb) as [H1 H2]. split; [|done].
    rewrite lookup_delete_ne; [done|]. intros Heq. by apply (Hfree k b Hkb).
  - intros k r v. simpl. rewrite lookup_delete. case_decide; [done|]. apply Hres.
Qed.

Lemma fresh_id_above {V} (m : gmap Z V) (k : Z) : is_Some (m !! k) → k < fresh_id m.
Proof.
  intros [v Hv]. unfold fresh_id.
  assert (Hin : k ∈ (map_to_list m).*1).
  { apply (list_elem_of_fmap_2' fst _ (k, v)); [|done]. by apply elem_of_map_to_list. }
  revert Hin. generalize ((map_to_list m).*1). intros l.
  induction l as [|x l IH]; intros Hin; [by apply elem_of_nil in Hin|].
  apply elem_of_cons in Hin as [->|Hin]; simpl; [lia|].
  specialize (IH Hin). lia.
Qed.

Lemma fresh_id_unused {V} (m : gmap Z V) : m !! fresh_id m = None.
Proof.
  destruct (m !! fresh_id m) as [v|] eqn:E; [|done].
  pose proof (fresh_id_above m (fresh_id m) (mk_is_Some _ _ E)). lia.
Qed.

(** ** Consuming by weight: what changes and what does not *)

(** X1.  [use_weight_safe] changes nothing but the used-quantity of the bottle
    with the given id: the committed store, the events, the vendors, the
    resins, every other bottle and every other field of the bottle are as
    before, and for an id without bottle the working copy is unchanged. *)
Theorem use_weight_safe_frame (bottle_id : Z) (weight : Q) (w : World) :
  let w' := (BottleDb.use_weight_safe bottle_id weight w).2 in
  committed w' = committed w ∧ published w' = published w ∧ outbox w' = outbox w
  ∧ vendors (session w') = vendors (session w)
  ∧ resins (session w') = resins (session w)
  ∧ (∀ id, id ≠ bottle_id → bottles (session w') !! id = bottles (session w) !! id)
  ∧ (bottles (session w) !! bottle_id = None → session w' = session w)
  ∧ (∀ b, bottles (session w) !! bottle_id = Some b →
       ∃ u, bottles (session w') !! bottle_id = Some (with_used_weight (Some u) b)
            ∧ (0 <= u)%Q).
Proof.
  simpl. repeat split.
  - intros id Hid. by rewrite lookup_alter_ne.
  - intros Hnone. destruct (session w) as [vs rs bs].
    unfold update_used_weight, set_bottles. simpl in *.
    f_equal. apply alter_id. intros b Hb. congruence.
  - intros b Hb. rewrite lookup_alter_eq, Hb. simpl.
    destruct (case_used_weight weight (b_used_weight b)) as [u|] eqn:E.
    + exists u. split; [done|]. by eapply case_used_weight_nonneg.
    + by destruct (b_used_weight b) as [u0|]; simpl in E;
        [destruct (Qle_bool 0 (u0 + weight))|].
Qed.

Lemma use_weight_safe_frame_witness :
  ∃ u, bottles (session (BottleDb.use_weight_safe 1 (-10)%Q Examples.world1).2) !! 1
       = Some (with_used_weight (Some u) Examples.bottle1)
       ∧ (0 <= u)%Q.
Proof.
  exact (proj2 (proj2 (proj2 (proj2 (proj2 (proj2 (proj2
           (use_weight_safe_frame 1 (-10)%Q Examples.world1)))))))
           Examples.bottle1 eq_refl).
Defined.

Lemma touch_runs (bottle_id : Z) (b : BottleRow) (w : World) :
  bottles (session w) !! bottle_id = Some b →
  integrity_ok (session w) = true →
  let b' := with_last_used (Some (now w))
              (with_first_used (Some (default (now w) (b_first_used b))) b) in
  ∃ w', BottleDb.touch bottle_id w = (Ok b', w')
        ∧ bottles (committed w') !! bottle_id = Some b'
        ∧ (∀ id, id ≠ bottle_id →
             bottles (committed w') !! id = bottles (session w) !! id)
        ∧ resins (committed w') = resins (session w)
        ∧ published w'
          = published w
            ++ [(["bottle"; str (b_id b)]%string,
                 {| ev_type := UPDATED; ev_resource := "bottle"; ev_date := now w;
                    ev_payload := PBottle b' |})].
Proof.
  intros Hb Hok b'. unfold BottleDb.touch.
  erewrite bind_Ok by (by apply bottle_get_by_id_Some).
  erewrite bind_Ok by reflexivity.
  set (f1 := match b_first_used b with
             | Some _ => λ x : BottleRow, x
             | None => with_first_used (Some (now w))
             end).
  erewrite (bind_Ok _ _ w (set_session (set_bottles (alter f1 bottle_id)) w) tt); cycle 1.
  { subst f1. destruct (b_first_used b); [|reflexivity].
    unfold ret. f_equal. destruct w as [c s n cs p o]. unfold set_session. simpl.
    f_equal. destruct s as [vs rs bs]. unfold set_bottles. simpl in *. f_equal.
    symmetry. by apply alter_id. }
  erewrite bind_Ok by reflexivity.
  assert (Hb' : bottles (set_bottles (alter (with_last_used (Some (now w))) bottle_id)
                           (set_bottles (alter f1 bottle_id) (session w))) !! bottle_id
                = Some b').
  { simpl. rewrite !lookup_alter_eq, Hb. simpl. f_equal. subst f1 b'.
    by destruct (b_first_used b) eqn:E; destruct b; simpl in *; subst. }
  erewrite bind_Ok; cycle 1.
  { apply db_commit_Ok. simpl.
    apply integrity_ok_alter_bottle; [done|done|].
    apply integrity_ok_alter_bottle; [| |done]; subst f1;
      intros x; by destruct (b_first_used b). }
  erewrite bind_Ok by (apply bottle_get_by_id_Some; exact Hb').
  erewrite bind_Ok by reflexivity.
  eexists. split; [reflexivity|]. simpl. split; [exact Hb'|].
  split; [|split; [done|]].
  - intros id Hid. by rewrite !lookup_alter_ne.
  - by destruct b.
Qed.

(** X2.  [use_weight] on a bottle of a consistent store returns the bottle
    with the used-quantity clamped at zero, [last_used] set to the current
    time and [first_used] set to the current time only if it was unset; the
    committed store holds that bottle, no other bottle has changed, and one
    UPDATED event carrying it is published to the bottle's topic. *)
Theorem use_weight_effect (bottle_id : Z) (weight : Q) (b : BottleRow) (w : World) :
  bottles (session w) !! bottle_id = Some b →
  integrity_ok (session w) = true →
  let b' := with_last_used (Some (now w))
              (with_first_used (Some (default (now w) (b_first_used b)))
                 (with_used_weight (case_used_weight weight (b_used_weight b)) b)) in
  ∃ w', BottleDb.use_weight bottle_id weight w = (Ok b', w')
        ∧ bottles (committed w') !! bottle_id = Some b'
        ∧ (∀ id, id ≠ bottle_id →
             bottles (committed w') !! id = bottles (session w) !! id)
        ∧ published w'
          = published w
            ++ [(["bottle"; str (b_id b)]%string,
                 {| ev_type := UPDATED; ev_resource := "bottle"; ev_date := now w;
                    ev_payload := PBottle b' |})].
Proof.
  intros Hb Hok b'. unfold BottleDb.use_weight.
  erewrite bind_Ok by reflexivity.
  set (w1 := set_session (update_used_weight bottle_id weight) w).
  destruct (touch_runs bottle_id
              (with_used_weight (case_used_weight weight (b_used_weight b)) b) w1)
    as (w' & Ht & Hc & Hothers & _ & Hp).
  { subst w1. simpl. by rewrite lookup_alter_eq, Hb. }
  { subst w1. simpl. apply integrity_ok_alter_bottle; [done| |done].
    intros x _. simpl. destruct (b_used_weight x) as [u|]; simpl; [|done].
    by destruct (Qle_bool 0 (u + weight)). }
  exists w'. split; [exact Ht|]. split; [exact Hc|]. split; [|exact Hp].
  intros id Hid. rewrite (Hothers id Hid). subst w1. simpl. by rewrite lookup_alter_ne.
Qed.

Lemma use_weight_effect_witness :
  ∃ w', BottleDb.use_weight 1 (-10)%Q Examples.world1
        = (Ok (with_last_used (Some 100)
                 (with_first_used (Some 100)
                    (with_used_weight (Some 0%Q) Examples.bottle1))), w')
        ∧ bottles (committed w') !! 1
          = Some (with_last_used (Some 100)
                    (with_first_used (Some 100)
                       (with_used_weight (Some 0%Q) Examples.bottle1))).
Proof.
  destruct (use_weight_effect 1 (-10)%Q Examples.bottle1 Examples.world1
              eq_refl eq_refl) as (w' & H1 & H2 & _).
  exists w'. split; [exact H1|exact H2].
Defined.

Lemma set_session_id (f : Store → Store) (w : World) :
  f (session w) = session w → set_session f w = w.
Proof. intros H. destruct w. unfold set_session. simpl in *. by rewrite H. Qed.

Lemma update_used_weight_missing (bottle_id : Z) (weight : Q) (s : Store) :
  bottles s !! bottle_id = None → update_used_weight bottle_id weight s = s.
Proof.
  intros H. destruct s as [vs rs bs]. unfold update_used_weight, set_bottles.
  simpl in *. f_equal. apply alter_id. intros b Hb. congruence.
Qed.

(** X3.  Consuming by weight from a bottle that does not exist raises
    [ItemNotFoundError] and changes nothing: the UPDATE matches no row and the
    lookup that follows fails.  The endpoint answers 404. *)
Theorem use_missing_bottle (commit_on_exit : bool) (bottle_id : Z) (weight : Q)
    (w : World) :
  bottles (session w) !! bottle_id = None →
  BottleDb.use_weight bottle_id weight w
  = (Raise (ItemNotFoundError ("No bottle with ID " ++ str bottle_id ++ " found.")), w)
  ∧ (session w = committed w →
     serve commit_on_exit
       (BottleApi.use bottle_id
          {| BottleApi.use_length := None; BottleApi.use_weight := Some weight |}) w
     = (JSONResponse 404 ("No bottle with ID " ++ str bottle_id ++ " found."), w)).
Proof.
  intros Hnone.
  assert (Hw : BottleDb.use_weight bottle_id weight w
               = (Raise (ItemNotFoundError
                           ("No bottle with ID " ++ str bottle_id ++ " found.")), w)).
  { unfold BottleDb.use_weight, BottleDb.use_weight_safe, bind, db_write.
    rewrite set_session_id by (by apply update_used_weight_missing).
    unfold BottleDb.touch, BottleDb.get_by_id, bind, db_read. by rewrite Hnone. }
  split; [exact Hw|].
  intros Hs.
  assert (Hroll : (db_rollback w).2 = w).
  { simpl. apply set_session_id. by symmetry. }
  unfold serve. rewrite Hroll. unfold BottleApi.use. simpl.
  erewrite !bind_Raise by exact Hw. simpl.
  simpl in Hroll. by rewrite Hroll.
Qed.

Lemma use_missing_bottle_witness :
  serve true
    (BottleApi.use 5 {| BottleApi.use_length := None;
                        BottleApi.use_weight := Some 3%Q |}) Examples.world1
  = (JSONResponse 404 "No bottle with ID 5 found.", Examples.world1).
Proof.
  exact (proj2 (use_missing_bottle true 5 3%Q Examples.world1 eq_refl) eq_refl).
Defined.

(** ** Creating a bottle: errors and effect *)

Lemma create_used_weight_step (resin : ResinRow) (remaining_weight used_weight : option Q)
    (w : World) :
  match used_weight with
  | Some used_weight0 => ret used_weight0
  | None =>
      match remaining_weight with
      | Some remaining_weight0 =>
          match r_weight resin with
          | Some weight => ret (py_max (weight - remaining_weight0) 0)
          | None =>
              raise (ItemCreateError
                "remaining_weight can only be used if the resin type has a weight set.")
          end
      | None => ret 0%Q
      end
  end w
  = match initial_used_weight resin remaining_weight used_weight with
    | Some u => (Ok u, w)
    | None =>
        (Raise (ItemCreateError
           "remaining_weight can only be used if the resin type has a weight set."), w)
    end.
Proof.
  unfold initial_used_weight.
  by destruct used_weight, remaining_weight, (r_weight resin).
Qed.

(** X4.  [create] for a resin id without resin raises [ItemNotFoundError]; with
    a remaining weight, no used weight and a resin without declared weight it
    raises [ItemCreateError], which the endpoint answers 400.  In both cases
    nothing is stored and nothing is published. *)
Theorem bottle_create_errors (resin_id : Z) (remaining_weight used_weight : option Q)
    (first_used last_used : option datetime)
    (location lot_nr comment : option string) (archived : bool) (w : World) :
  (resins (session w) !! resin_id = None →
   BottleDb.create resin_id remaining_weight used_weight first_used last_used
     location lot_nr comment archived w
   = (Raise (ItemNotFoundError ("No resin with ID " ++ str resin_id ++ " found.")), w))
  ∧ (∀ resin, resins (session w) !! resin_id = Some resin →
       initial_used_weight resin remaining_weight used_weight = None →
       BottleDb.create resin_id remaining_weight used_weight first_used last_used
         location lot_nr comment archived w
       = (Raise (ItemCreateError
            "remaining_weight can only be used if the resin type has a weight set."), w)
       ∧ BottleApi.create
           {| BottleApi.first_used := first_used; BottleApi.last_used := last_used;
              BottleApi.resin_id := resin_id;
              BottleApi.remaining_weight := remaining_weight;
              BottleApi.used_weight := used_weight; BottleApi.location := location;
              BottleApi.lot_nr := lot_nr; BottleApi.comment := comment;
              BottleApi.archived := archived |} w
         = (Ok (JSONResponse 400
                  "Failed to create bottle, see server logs for more information."), w)).
Proof.
  split.
  - intros Hnone. unfold BottleDb.create, ResinDb.get_by_id, bind, db_read.
    by rewrite Hnone.
  - intros resin Hr Hinit.
    assert (Hc : BottleDb.create resin_id remaining_weight used_weight first_used
                   last_used location lot_nr comment archived w
                 = (Raise (ItemCreateError
                      "remaining_weight can only be used if the resin type has a weight set."),
                    w)).
    { unfold BottleDb.create.
      erewrite bind_Ok by (by apply resin_get_by_id_Some).
      erewrite bind_Raise; [reflexivity|].
      by rewrite create_used_weight_step, Hinit. }
    split; [exact Hc|].
    unfold BottleApi.create. simpl.
    assert (Hu : used_weight = None).
    { unfold initial_used_weight in Hinit. by destruct used_weight. }
    subst used_weight. rewrite andb_false_r.
    unfold try_except_ItemCreateError. by erewrite bind_Raise by exact Hc.
Qed.

Lemma bottle_create_errors_witness :
  BottleDb.create 5 None None None None None None None false Examples.world1
  = (Raise (ItemNotFoundError "No resin with ID 5 found."), Examples.world1).
Proof.
  exact (proj1 (bottle_create_errors 5 None None None None None None None false
                  Examples.world1) eq_refl).
Defined.

(** X5.  When the resin exists, in a consistent store, [create] returns a
    bottle with a new id that carries the arguments (the timestamps converted
    to UTC), the used weight taking precedence over the remaining weight; every bottle that existed is still
    there unchanged, the new bottle can be read back by its id, and one ADDED
    event carrying it is published to its topic. *)
Theorem bottle_create_effect (resin_id : Z) (resin : ResinRow)
    (remaining_weight used_weight : option Q) (u : Q)
    (first_used last_used : option datetime)
    (location lot_nr comment : option string) (archived : bool) (w : World) :
  resins (session w) !! resin_id = Some resin →
  integrity_ok (session w) = true →
  initial_used_weight resin remaining_weight used_weight = Some u →
  let b := {| b_id := fresh_id (bottles (session w)); b_registered := now w;
              b_resin_id := resin_id; b_used_weight := Some u;
              b_first_used := utc_timezone_naive <$> first_used;
              b_last_used := utc_timezone_naive <$> last_used;
              b_location := location; b_lot_nr := lot_nr; b_comment := comment;
              b_archived := Some archived |} in
  ∃ w', BottleDb.create resin_id remaining_weight used_weight first_used last_used
          location lot_nr comment archived w = (Ok b, w')
        ∧ bottles (session w) !! b_id b = None
        ∧ (∀ id b0, bottles (session w) !! id = Some b0 →
             bottles (committed w') !! id = Some b0)
        ∧ BottleDb.get_by_id (b_id b) w' = (Ok b, w')
        ∧ published w'
          = published w
            ++ [(["bottle"; str (b_id b)]%string,
                 {| ev_type := ADDED; ev_resource := "bottle"; ev_date := now w;
                    ev_payload := PBottle b |})].
Proof.
  intros Hr Hok Hinit b. unfold BottleDb.create.
  erewrite bind_Ok by (by apply resin_get_by_id_Some).
  erewrite (bind_Ok _ _ w w u) by (by rewrite create_used_weight_step, Hinit).
  erewrite bind_Ok by reflexivity.
  erewrite bind_Ok by reflexivity.
  erewrite bind_Ok by reflexivity.
  erewrite bind_Ok; cycle 1.
  { apply db_commit_Ok. simpl.
    apply integrity_ok_insert_bottle; [done|simpl; by rewrite Hr|done]. }
  erewrite bind_Ok by reflexivity.
  eexists. split; [reflexivity|].
  simpl. split; [apply fresh_id_unused|]. split; [|split; [|done]].
  - intros id b0 Hb0. rewrite lookup_insert_ne; [done|].
    intros <-. by rewrite fresh_id_unused in Hb0.
  - apply bottle_get_by_id_Some. simpl. by rewrite lookup_insert_eq.
Qed.

Lemma bottle_create_effect_witness :
  ∃ w', BottleDb.create 1 (Some 100%Q) (Some 30%Q) None None None None None false
          Examples.world1
        = (Ok {| b_id := 2; b_registered := 100; b_resin_id := 1;
                 b_used_weight := Some 30%Q; b_first_used := None;
                 b_last_used := None; b_location := None; b_lot_nr := None;
                 b_comment := None; b_archived := Some false |}, w')
        ∧ bottles (committed w') !! 1 = Some Examples.bottle1.
Proof.
  destruct (bottle_create_effect 1 Examples.resin1 (Some 100%Q) (Some 30%Q) 30%Q
              None None None None None false Examples.world1 eq_refl eq_refl eq_refl)
    as (w' & H1 & _ & H2 & _).
  exists w'. split; [exact H1|]. by apply H2.
Defined.

(** ** Updating a bottle *)

Lemma integrity_ok_alter_bottle_at (s : Store) (id : Z) (f : BottleRow → BottleRow) :
  (∀ b, bottles s !! id = Some b →
        is_Some (resins s !! b_resin_id (f b)) ∧ is_Some (b_used_weight (f b))) →
  integrity_ok s = true → integrity_ok (set_bottles (alter f id) s) = true.
Proof.
  intros Hf. rewrite !integrity_ok_spec. intros [Hb Hres]. split; [|exact Hres].
  intros k b'. simpl. rewrite lookup_alter. case_decide as Hk; [|apply Hb].
  subst k. destruct (bottles s !! id) as [b|] eqn:E; simpl; [|done].
  intros [= <-]. by apply Hf.
Qed.

(** X6.  In an update the resin is reassigned before the remaining weight is
    applied: a request that sets both gives the used-quantity
    max(C - R, 0) for the weight C of the new resin, whatever the old resin
    declared; the bottle is committed and one UPDATED event is published. *)
Theorem update_resin_then_remaining_weight (bottle_id resin_id : Z) (b : BottleRow)
    (resin : ResinRow) (C R : Q) (w : World) :
  bottles (session w) !! bottle_id = Some b →
  resins (session w) !! resin_id = Some resin →
  r_weight resin = Some C →
  integrity_ok (session w) = true →
  let b' := with_used_weight (Some (py_max (C - R) 0)) (with_resin_id resin_id b) in
  ∃ w', BottleApi.update bottle_id (move_and_refill resin_id R) w
        = (Ok {| status_code := 200; content := CBottle b' |}, w')
        ∧ bottles (committed w') !! bottle_id = Some b'
        ∧ published w'
          = published w
            ++ [(["bottle"; str (b_id b)]%string,
                 {| ev_type := UPDATED; ev_resource := "bottle"; ev_date := now w;
                    ev_payload := PBottle b' |})].
Proof.
  intros Hb Hr HC Hok b'. unfold BottleApi.update. simpl.
  unfold try_except_ItemCreateError.
  assert (Hb1 : bottles (set_bottles (alter (with_resin_id resin_id) bottle_id)
                           (session w)) !! bottle_id
                = Some (with_resin_id resin_id b)).
  { simpl. by rewrite lookup_alter_eq, Hb. }
  set (s2 := set_bottles (alter (with_used_weight (Some (py_max (C - R) 0))) bottle_id)
               (set_bottles (alter (with_resin_id resin_id) bottle_id) (session w))).
  assert (Hb2 : bottles s2 !! bottle_id = Some b').
  { subst s2. simpl. by rewrite !lookup_alter_eq, Hb. }
  assert (Hok2 : integrity_ok s2 = true).
  { subst s2. apply integrity_ok_alter_bottle; [done|done|].
    apply integrity_ok_alter_bottle_at; [|done].
    intros b0 Hb0. simpl. rewrite Hr. split; [done|].
    apply integrity_ok_spec in Hok as [Hbs _]. by destruct (Hbs _ _ Hb0). }
  set (w2 := set_session (λ _, s2) w).
  assert (Hloop : for_each (BottleDb.update_item bottle_id)
                    [I_resin_id (Some resin_id); I_remaining_weight (Some R)] w
                  = (Ok tt, w2)).
  { simpl.
    set (w1 := set_session (set_bottles (alter (with_resin_id resin_id) bottle_id)) w).
    erewrite (bind_Ok _ _ w w1 tt); cycle 1.
    { erewrite bind_Ok by (by apply resin_get_by_id_Some). reflexivity. }
    erewrite (bind_Ok _ _ w1 w2 tt); [reflexivity|].
    erewrite (bind_Ok _ _ w1 w1 resin); cycle 1.
    { unfold BottleDb.bottle_resin.
      erewrite bind_Ok by (apply bottle_get_by_id_Some; exact Hb1).
      erewrite (bind_Ok _ _ w1 w1 (Some resin)); [reflexivity|].
      unfold db_read. simpl. by rewrite Hr. }
    rewrite HC. reflexivity. }
  assert (Hupd : ∃ w', BottleDb.update bottle_id
                         [I_resin_id (Some resin_id); I_remaining_weight (Some R)] w
                       = (Ok b', w')
                       ∧ bottles (committed w') !! bottle_id = Some b'
                       ∧ published w'
                         = published w
                           ++ [(["bottle"; str (b_id b)]%string,
                                {| ev_type := UPDATED; ev_resource := "bottle";
                                   ev_date := now w; ev_payload := PBottle b' |})]).
  { unfold BottleDb.update.
    erewrite bind_Ok by (by apply bottle_get_by_id_Some).
    erewrite bind_Ok by exact Hloop.
    erewrite bind_Ok by (apply db_commit_Ok; exact Hok2).
    erewrite bind_Ok by (apply bottle_get_by_id_Some; exact Hb2).
    erewrite bind_Ok by reflexivity.
    eexists. split; [reflexivity|]. simpl. split; [exact Hb2|]. by destruct b. }
  destruct Hupd as (w' & Hupd & Hc & Hp).
  exists w'. split; [|by split].
  fold (BottleDb.update bottle_id
          [I_resin_id (Some resin_id); I_remaining_weight (Some R)]).
  by erewrite bind_Ok by exact Hupd.
Qed.

Lemma update_resin_then_remaining_weight_witness :
  ∃ w', BottleApi.update 1 (move_and_refill 2 600%Q) Examples.world2
        = (Ok {| status_code := 200;
                 content := CBottle (with_used_weight (Some (py_max (500 - 600) 0))
                                       (with_resin_id 2 Examples.bottle1)) |}, w')
        ∧ bottles (committed w') !! 1
          = Some (with_used_weight (Some (py_max (500 - 600) 0))
                    (with_resin_id 2 Examples.bottle1)).
Proof.
  destruct (update_resin_then_remaining_weight 1 2 Examples.bottle1 Examples.resin2
              500%Q 600%Q Examples.world2 eq_refl eq_refl eq_refl eq_refl)
    as (w' & H1 & H2 & _).
  exists w'. split; [exact H1|exact H2].
Defined.

Lemma update_loop_unknown_resin (bottle_id resin_id : Z) (pre rest : list Item)
    (w : World) :
  Forall plain_item pre →
  resins (session w) !! resin_id = None →
  ∃ w', for_each (BottleDb.update_item bottle_id)
          (pre ++ I_resin_id (Some resin_id) :: rest) w
        = (Raise (ItemNotFoundError ("No resin with ID " ++ str resin_id ++ " found.")),
           w')
        ∧ committed w' = committed w ∧ now w' = now w
        ∧ connections w' = connections w ∧ published w' = published w
        ∧ outbox w' = outbox w.
Proof.
  intros Hpre. revert w. induction Hpre as [|x pre Hx _ IH]; intros w Hr; simpl.
  - exists w. split; [|done].
    erewrite bind_Raise; [reflexivity|].
    erewrite bind_Raise; [reflexivity|].
    unfold ResinDb.get_by_id, bind, db_read. by rewrite Hr.
  - assert (Hstep : ∃ g, BottleDb.update_item bottle_id x w
                         = (Ok tt, set_session (set_bottles (alter g bottle_id)) w)).
    { destruct x as [[v|]|[v|]|v|v|v|v|v|v|v]; try done; by eexists. }
    destruct Hstep as [g Hstep].
    destruct (IH (set_session (set_bottles (alter g bottle_id)) w) Hr)
      as (w' & Hloop & H1 & H2 & H3 & H4 & H5).
    exists w'. split; [|done]. by erewrite bind_Ok by exact Hstep.
Qed.

Lemma dict_exclude_unset_resin_id (body : BottleApi.BottleUpdateParameters) (v : option Z) :
  BottleApi.upd_resin_id body = Some v →
  ∃ pre rest, BottleApi.dict_exclude_unset body = pre ++ I_resin_id v :: rest
              ∧ Forall plain_item pre.
Proof.
  intros Hv. unfold BottleApi.dict_exclude_unset. rewrite Hv.
  destruct (BottleApi.upd_first_used body) as [f|],
           (BottleApi.upd_last_used body) as [l|]; simpl.
  - exists [I_first_used f; I_last_used l]. eexists. split; [reflexivity|].
    by repeat constructor.
  - exists [I_first_used f]. eexists. split; [reflexivity|]. by repeat constructor.
  - exists [I_last_used l]. eexists. split; [reflexivity|]. by repeat constructor.
  - exists []. eexists. split; [reflexivity|]. constructor.
Qed.

(** X7.  An update that reassigns the bottle to a resin that does not exist
    fails as a whole: the fields that precede the resin in the request have
    been assigned to the loaded bottle, yet nothing is committed, nothing is
    published, and the endpoint answers 404. *)
Theorem update_unknown_resin (commit_on_exit : bool) (bottle_id resin_id : Z)
    (b : BottleRow) (body : BottleApi.BottleUpdateParameters) (w : World) :
  bottles (committed w) !! bottle_id = Some b →
  resins (committed w) !! resin_id = None →
  BottleApi.upd_resin_id body = Some (Some resin_id) →
  ¬ (is_Some (mjoin (BottleApi.upd_remaining_weight body))
     ∧ is_Some (mjoin (BottleApi.upd_used_weight body))) →
  serve commit_on_exit (BottleApi.update bottle_id body) w
  = (JSONResponse 404 ("No resin with ID " ++ str resin_id ++ " found."),
     (db_rollback w).2).
Proof.
  intros Hb Hr Hv Hboth. unfold serve.
  set (w0 := (db_rollback w).2).
  destruct (dict_exclude_unset_resin_id body _ Hv) as (pre & rest & Hdict & Hpre).
  destruct (update_loop_unknown_resin bottle_id resin_id pre rest w0 Hpre Hr)
    as (w' & Hloop & H1 & H2 & H3 & H4 & H5).
  assert (Hupd : BottleApi.update bottle_id body w0
                 = (Raise (ItemNotFoundError
                             ("No resin with ID " ++ str resin_id ++ " found.")), w')).
  { unfold BottleApi.update.
    rewrite (proj2 (andb_false_iff _ _)); cycle 1.
    { destruct (decide (is_Some (mjoin (BottleApi.upd_remaining_weight body))));
        [right|left]; apply bool_decide_eq_false_2; tauto. }
    rewrite Hv. simpl. unfold try_except_ItemCreateError. rewrite Hdict.
    assert (Hdb : BottleDb.update bottle_id (pre ++ I_resin_id (Some resin_id) :: rest) w0
                  = (Raise (ItemNotFoundError
                              ("No resin with ID " ++ str resin_id ++ " found.")), w')).
    { unfold BottleDb.update.
      erewrite bind_Ok by (by apply bottle_get_by_id_Some).
      by rewrite (bind_Raise _ _ _ _ _ Hloop). }
    by rewrite (bind_Raise _ _ _ _ _ Hdb). }
  rewrite Hupd. simpl. f_equal.
  destruct w' as [c' s' n' cs' p' o'], w as [c s n cs p o].
  unfold set_session. simpl in *. by subst.
Qed.

Lemma update_unknown_resin_witness :
  serve true (BottleApi.update 1 (move_and_refill 7 600%Q)) Examples.world1
  = (JSONResponse 404 "No resin with ID 7 found.", (db_rollback Examples.world1).2).
Proof.
  refine (update_unknown_resin true 1 7 Examples.bottle1 (move_and_refill 7 600%Q)
            Examples.world1 eq_refl eq_refl eq_refl _).
  intros [_ [x Hx]]. discriminate Hx.
Defined.

(** X8.  An update that sets no field still commits and still publishes an
    UPDATED event for the bottle, which it returns unchanged. *)
Theorem update_nothing_still_publishes (bottle_id : Z) (b : BottleRow) (w : World) :
  bottles (session w) !! bottle_id = Some b →
  integrity_ok (session w) = true →
  ∃ w', BottleApi.update bottle_id Examples.empty_update w
        = (Ok {| status_code := 200; content := CBottle b |}, w')
        ∧ committed w' = session w ∧ session w' = session w
        ∧ published w'
          = published w
            ++ [(["bottle"; str (b_id b)]%string,
                 {| ev_type := UPDATED; ev_resource := "bottle"; ev_date := now w;
                    ev_payload := PBottle b |})].
Proof.
  intros Hb Hok. unfold BottleApi.update. simpl.
  unfold try_except_ItemCreateError.
  assert (Hupd : ∃ w', BottleDb.update bottle_id [] w = (Ok b, w')
                       ∧ committed w' = session w ∧ session w' = session w
                       ∧ published w'
                         = published w
                           ++ [(["bottle"; str (b_id b)]%string,
                                {| ev_type := UPDATED; ev_resource := "bottle";
                                   ev_date := now w; ev_payload := PBottle b |})]).
  { unfold BottleDb.update.
    erewrite bind_Ok by (by apply bottle_get_by_id_Some).
    erewrite bind_Ok by reflexivity.
    erewrite bind_Ok by (by apply db_commit_Ok).
    erewrite bind_Ok by (by apply bottle_get_by_id_Some).
    erewrite bind_Ok by reflexivity.
    eexists. split; [reflexivity|]. done. }
  destruct Hupd as (w' & Hupd & H1 & H2 & H3).
  exists w'. split; [|done].
  fold (BottleDb.update bottle_id []). by erewrite bind_Ok by exact Hupd.
Qed.

Lemma update_nothing_still_publishes_witness :
  ∃ w', BottleApi.update 1 Examples.empty_update Examples.world1
        = (Ok {| status_code := 200; content := CBottle Examples.bottle1 |}, w')
        ∧ committed w' = session Examples.world1.
Proof.
  destruct (update_nothing_still_publishes 1 Examples.bottle1 Examples.world1
              eq_refl eq_refl) as (w' & H1 & H2 & _).
  exists w'. split; [exact H1|exact H2].
Defined.

(** ** Deleting *)

(** X9.  Deleting a bottle publishes one DELETED event carrying the bottle and
    answers 200; [delete] itself does not commit, so the bottle leaves the
    store when the session dependency commits on exit, which never fails in
    a consistent store (nothing refers to a bottle), and the resins, the
    vendors and the other bottles stay.  Deleting a bottle that does not
    exist answers 404 and changes nothing. *)
Theorem bottle_delete_effect (commit_on_exit : bool) (bottle_id : Z) (w : World) :
  integrity_ok (committed w) = true →
  (∀ b, bottles (committed w) !! bottle_id = Some b →
     ∃ w', serve commit_on_exit (BottleApi.delete bottle_id) w
           = (JSONResponse 200 "Success!", w')
           ∧ published w'
             = published w
               ++ [(["bottle"; str (b_id b)]%string,
                    {| ev_type := DELETED; ev_resource := "bottle"; ev_date := now w;
                       ev_payload := PBottle b |})]
           ∧ committed w'
             = (if commit_on_exit
                then set_bottles (base.delete bottle_id) (committed w)
                else committed w)
           ∧ integrity_ok (committed w') = true)
  ∧ (bottles (committed w) !! bottle_id = None →
     serve commit_on_exit (BottleApi.delete bottle_id) w
     = (JSONResponse 404 ("No bottle with ID " ++ str bottle_id ++ " found."),
        (db_rollback w).2)).
Proof.
  intros Hok. unfold serve. set (w0 := (db_rollback w).2). split.
  - intros b Hb.
    assert (Hdel : ∃ w1, BottleDb.delete bottle_id w0 = (Ok tt, w1)
                         ∧ w1 = {| committed := committed w;
                                   session := set_bottles (base.delete bottle_id)
                                                (committed w);
                                   now := now w; connections := connections w;
                                   published := published w
                                     ++ [(["bottle"; str (b_id b)]%string,
                                          {| ev_type := DELETED; ev_resource := "bottle";
                                             ev_date := now w;
                                             ev_payload := PBottle b |})];
                                   outbox := outbox w
                                     ++ Ws.send ["bottle"; str (b_id b)]%string
                                          {| ev_type := DELETED; ev_resource := "bottle";
                                             ev_date := now w;
                                             ev_payload := PBottle b |}
                                          (connections w) |}).
    { unfold BottleDb.delete.
      erewrite bind_Ok by (by apply bottle_get_by_id_Some).
      erewrite bind_Ok by reflexivity.
      eexists. split; reflexivity. }
    destruct Hdel as (w1 & Hdel & Hw1).
    unfold BottleApi.delete. erewrite bind_Ok by exact Hdel. unfold ret. subst w1.
    destruct commit_on_exit.
    + rewrite db_commit_Ok by (by apply integrity_ok_delete_bottle).
      eexists. split; [reflexivity|]. simpl. split; [done|]. split; [done|].
      by apply integrity_ok_delete_bottle.
    + eexists. split; [reflexivity|]. by simpl.
  - intros Hnone. unfold BottleApi.delete, BottleDb.delete.
    assert (Hget : BottleDb.get_by_id bottle_id w0
                   = (Raise (ItemNotFoundError
                               ("No bottle with ID " ++ str bottle_id ++ " found.")), w0)).
    { unfold BottleDb.get_by_id, bind, db_read. subst w0. simpl. by rewrite Hnone. }
    rewrite (bind_Raise _ _ _ _ _ (bind_Raise _ _ _ _ _ Hget)). reflexivity.
Qed.

Lemma bottle_delete_effect_witness :
  ∃ w', serve true (BottleApi.delete 1) Examples.world1
        = (JSONResponse 200 "Success!", w')
        ∧ committed w' = set_bottles (base.delete 1) (committed Examples.world1).
Proof.
  destruct (proj1 (bottle_delete_effect true 1 Examples.world1 eq_refl)
              Examples.bottle1 eq_refl) as (w' & H1 & _ & H2 & _).
  exists w'. split; [exact H1|exact H2].
Defined.

(** X10.  Deleting a resin that no bottle refers to is committed, and then
    [resin_changed] raises [NameError] (it loads [FilamentEvent]), which is
    not caught: the endpoint answers 500 and no DELETED event is published,
    although the resin is gone from the store. *)
Theorem resin_delete_unreferenced (commit_on_exit : bool) (resin_id : Z)
    (resin : ResinRow) (w : World) :
  integrity_ok (committed w) = true →
  resins (committed w) !! resin_id = Some resin →
  (∀ k b, bottles (committed w) !! k = Some b → b_resin_id b ≠ resin_id) →
  ∃ w', serve commit_on_exit (ResinApi.delete resin_id) w
        = (JSONResponse 500 "Internal Server Error", w')
        ∧ committed w' = remove_resin resin_id (committed w)
        ∧ resins (committed w') !! resin_id = None
        ∧ published w' = published w ∧ outbox w' = outbox w.
Proof.
  intros Hok Hr Hfree. unfold serve. set (w0 := (db_rollback w).2).
  assert (Hdel : ResinDb.delete resin_id w0
                 = (Raise (NameError "FilamentEvent"),
                    {| committed := remove_resin resin_id (committed w);
                       session := remove_resin resin_id (committed w);
                       now := now w; connections := connections w;
                       published := published w; outbox := outbox w |})).
  { unfold ResinDb.delete.
    erewrite bind_Ok by (by apply resin_get_by_id_Some).
    erewrite bind_Ok by reflexivity.
    unfold try_except_IntegrityError.
    erewrite bind_Ok by (apply db_commit_Ok; by apply integrity_ok_remove_resin).
    reflexivity. }
  unfold ResinApi.delete, try_except_ItemDeleteError.
  rewrite (bind_Raise _ _ _ _ _ Hdel). simpl.
  eexists. split; [reflexivity|]. simpl. split; [done|]. split; [|done].
  apply lookup_delete_eq.
Qed.

Lemma resin_delete_unreferenced_witness :
  ∃ w', serve true (ResinApi.delete 2) Examples.world2
        = (JSONResponse 500 "Internal Server Error", w')
        ∧ resins (committed w') !! 2 = None.
Proof.
  destruct (resin_delete_unreferenced true 2 Examples.resin2 Examples.world2
              eq_refl eq_refl) as (w' & H1 & _ & H2 & _).
  - intros k b Hb. simpl in Hb. apply lookup_singleton_Some in Hb as [_ <-].
    discriminate.
  - exists w'. split; [exact H1|exact H2].
Defined.

(** ** Distinct values of a column *)

Lemma NoDup_omap_id {A} (l : list (option A)) : NoDup l → NoDup (omap id l).
Proof.
  induction 1 as [|o l Ho _ IH]; simpl; [constructor|].
  destruct o as [x|]; simpl; [|done]. constructor; [|done].
  intros Hx. apply Ho. apply list_elem_of_omap in Hx as (o & Ho' & Hid).
  simpl in Hid. by subst.
Qed.

Lemma distinct_non_null {R} (column : R → option string) (rows : list R) :
  NoDup (omap id (remove_dups (List.map column rows)))
  ∧ ∀ x, x ∈ omap id (remove_dups (List.map column rows))
         ↔ ∃ r, r ∈ rows ∧ column r = Some x.
Proof.
  split; [apply NoDup_omap_id, NoDup_remove_dups|].
  intros x. rewrite list_elem_of_omap. split.
  - intros (o & Ho & Hid). simpl in Hid. subst o.
    rewrite elem_of_remove_dups in Ho. apply list_elem_of_In, in_map_iff in Ho.
    destruct Ho as (r & Hr & Hin). exists r. split; [by apply list_elem_of_In|done].
  - intros (r & Hr & Hc). exists (Some x). split; [|done].
    rewrite elem_of_remove_dups. apply list_elem_of_In, in_map_iff.
    exists r. split; [done|by apply list_elem_of_In].
Qed.

Lemma elem_of_values {V} (m : gmap Z V) (v : V) :
  v ∈ (map_to_list m).*2 ↔ ∃ k, m !! k = Some v.
Proof.
  rewrite list_elem_of_fmap. split.
  - intros ([k v'] & -> & H). exists k. by apply elem_of_map_to_list.
  - intros [k H]. exists (k, v). split; [done|]. by apply elem_of_map_to_list.
Qed.

(** X11.  [find_locations] and [find_lot_numbers] never fail and change
    nothing; each returns, without repetition, exactly the locations (lot
    numbers) that some bottle has, and never the missing value. *)
Theorem find_locations_distinct (w : World) :
  (∃ l, BottleDb.find_locations w = (Ok l, w) ∧ NoDup l
        ∧ ∀ x, x ∈ l ↔ ∃ k b, bottles (session w) !! k = Some b
                               ∧ b_location b = Some x)
  ∧ (∃ l, BottleDb.find_lot_numbers w = (Ok l, w) ∧ NoDup l
          ∧ ∀ x, x ∈ l ↔ ∃ k b, bottles (session w) !! k = Some b
                                 ∧ b_lot_nr b = Some x).
Proof.
  split; eexists; (split; [reflexivity|]).
  - destruct (distinct_non_null b_location (map_to_list (bottles (session w))).*2)
      as [Hnd Hin].
    split; [exact Hnd|]. intros x. rewrite Hin. split.
    + intros (b & Hb & Hx). apply elem_of_values in Hb as [k Hk]. by exists k, b.
    + intros (k & b & Hk & Hx). exists b. split; [|done]. apply elem_of_values. by exists k.
  - destruct (distinct_non_null b_lot_nr (map_to_list (bottles (session w))).*2)
      as [Hnd Hin].
    split; [exact Hnd|]. intros x. rewrite Hin. split.
    + intros (b & Hb & Hx). apply elem_of_values in Hb as [k Hk]. by exists k, b.
    + intros (k & b & Hk & Hx). exists b. split; [|done]. apply elem_of_values. by exists k.
Qed.

(** X12.  [find_materials] and [find_article_numbers] never fail and change
    nothing; each returns, without repetition, exactly the materials (article
    numbers) that some resin has, and never the missing value. *)
Theorem find_materials_distinct (w : World) :
  (∃ l, ResinDb.find_materials w = (Ok l, w) ∧ NoDup l
        ∧ ∀ x, x ∈ l ↔ ∃ k r, resins (session w) !! k = Some r
                               ∧ r_material r = Some x)
  ∧ (∃ l, ResinDb.find_article_numbers w = (Ok l, w) ∧ NoDup l
          ∧ ∀ x, x ∈ l ↔ ∃ k r, resins (session w) !! k = Some r
                                 ∧ r_article_number r = Some x).
Proof.
  split; eexists; (split; [reflexivity|]).
  - destruct (distinct_non_null r_material (map_to_list (resins (session w))).*2)
      as [Hnd Hin].
    split; [exact Hnd|]. intros x. rewrite Hin. split.
    + intros (r & Hr & Hx). apply elem_of_values in Hr as [k Hk]. by exists k, r.
    + intros (k & r & Hk & Hx). exists r. split; [|done]. apply elem_of_values. by exists k.
  - destruct (distinct_non_null r_article_number (map_to_list (resins (session w))).*2)
      as [Hnd Hin].
    split; [exact Hnd|]. intros x. rewrite Hin. split.
    + intros (r & Hr & Hx). apply elem_of_values in Hr as [k Hk]. by exists k, r.
    + intros (k & r & Hk & Hx). exists r. split; [|done]. apply elem_of_values. by exists k.
Qed.

(** ** The colour code of a resin *)






(** ** Requests the bottle endpoints refuse *)

(** X15.  Creating or updating a bottle with both a remaining weight and a
    used weight is answered 400, and an update that sets the resin to null
    raises a validation error; in each case the handler returns before it
    touches the session: the world is as before. *)
Theorem bottle_endpoints_refuse (bottle_id : Z) (w : World) :
  (∀ body, is_Some (BottleApi.remaining_weight body) →
           is_Some (BottleApi.used_weight body) →
     BottleApi.create body w
     = (Ok (JSONResponse 400 "Only specify either remaining_weight or used_weight."), w))
  ∧ (∀ body, is_Some (mjoin (BottleApi.upd_remaining_weight body)) →
             is_Some (mjoin (BottleApi.upd_used_weight body)) →
       BottleApi.update bottle_id body w
       = (Ok (JSONResponse 400 "Only specify either remaining_weight or used_weight."),
          w))
  ∧ (∀ body, BottleApi.upd_resin_id body = Some None →
             ¬ (is_Some (mjoin (BottleApi.upd_remaining_weight body))
                ∧ is_Some (mjoin (BottleApi.upd_used_weight body))) →
       BottleApi.update bottle_id body w
       = (Raise (RequestValidationError "resin_id cannot be unset"), w)).
Proof.
  split; [|split].
  - intros body H1 H2. unfold BottleApi.create.
    by rewrite !bool_decide_eq_true_2.
  - intros body H1 H2. unfold BottleApi.update.
    by rewrite (bool_decide_eq_true_2 _ H1), (bool_decide_eq_true_2 _ H2).
  - intros body Hv Hboth. unfold BottleApi.update.
    rewrite (proj2 (andb_false_iff _ _)); cycle 1.
    { destruct (decide (is_Some (mjoin (BottleApi.upd_remaining_weight body))));
        [right|left]; apply bool_decide_eq_false_2; tauto. }
    by rewrite (bool_decide_eq_true_2 _ Hv).
Qed.

Lemma bottle_endpoints_refuse_witness :
  BottleApi.update 1
    {| BottleApi.upd_first_used := None; BottleApi.upd_last_used := None;
       BottleApi.upd_resin_id := Some None; BottleApi.upd_remaining_weight := None;
       BottleApi.upd_used_weight := None; BottleApi.upd_location := None;
       BottleApi.upd_lot_nr := None; BottleApi.upd_comment := None;
       BottleApi.upd_archived := None |} Examples.world1
  = (Raise (RequestValidationError "resin_id cannot be unset"), Examples.world1).
Proof.
  apply (proj2 (proj2 (bottle_endpoints_refuse 1 Examples.world1))).
  - reflexivity.
  - intros [[x Hx] _]. discriminate Hx.
Defined.

(** ** The liveness loop of a connection *)

Lemma listen_runs (pool : list string) (c : Ws.Conn) (incoming : list Incoming)
    (w : World) :
  listen pool c incoming w
  = (Ok tt,
     {| committed := committed w; session := session w; now := now w;
        connections := if hangs_up incoming
                       then Ws.disconnect pool c (connections w)
                       else connections w;
        published := published w;
        outbox := outbox w ++ replicate (answered incoming) (c, Healthy) |}).
Proof.
  revert w. induction incoming as [|[s|] rest IH]; intros w; simpl.
  - rewrite app_nil_r. by destruct w.
  - unfold bind. destruct (String.eqb s ""); simpl; rewrite IH; simpl; [done|].
    by rewrite <- app_assoc.
  - rewrite app_nil_r. by destruct w.
Qed.

Lemma connect_elsewhere (m : gmap (list string) (gset Ws.Conn))
    (pool pool' : list string) (c c' : Ws.Conn) :
  pool' ≠ pool ∨ c' ≠ c →
  subscribed (Ws.connect pool c m) pool' c' ↔ subscribed m pool' c'.
Proof.
  intros Hne. unfold subscribed, Ws.connect. rewrite lookup_insert.
  case_decide as Hp; [|done]. subst pool'. simpl.
  rewrite elem_of_union, elem_of_singleton. split; [|by right].
  intros [->|H]; [|done]. by destruct Hne.
Qed.

Lemma disconnect_elsewhere (m : gmap (list string) (gset Ws.Conn))
    (pool pool' : list string) (c c' : Ws.Conn) :
  pool' ≠ pool ∨ c' ≠ c →
  subscribed (Ws.disconnect pool c m) pool' c' ↔ subscribed m pool' c'.
Proof.
  intros Hne. unfold subscribed, Ws.disconnect.
  destruct (m !! pool) as [s|] eqn:E; [|done].
  rewrite lookup_insert. case_decide as Hp; [|done]. subst pool'. rewrite E. simpl.
  rewrite elem_of_difference, elem_of_singleton. split; [by intros [? _]|].
  intros H. split; [done|]. intros ->. by destruct Hne.
Qed.

(** X16.  A websocket endpoint registers the connection under its topic and
    answers every non-empty text frame of the peer with one healthy frame,
    sending nothing else; the connection stays registered until the peer
    disconnects and is deregistered then.  The store, the events published
    and the registrations of other connections and topics are untouched.
    (Registration is the broker's, as the spec describes it.) *)
Theorem websocket_endpoint_lifecycle (pool : list string) (c : Ws.Conn)
    (incoming : list Incoming) (w : World) :
  let r := websocket_endpoint pool c incoming w in
  r.1 = Ok tt
  ∧ committed r.2 = committed w ∧ session r.2 = session w
  ∧ published r.2 = published w
  ∧ outbox r.2 = outbox w ++ replicate (answered incoming) (c, Healthy)
  ∧ (subscribed (connections r.2) pool c ↔ hangs_up incoming = false)
  ∧ (∀ pool' c', pool' ≠ pool ∨ c' ≠ c →
       subscribed (connections r.2) pool' c' ↔ subscribed (connections w) pool' c').
Proof.
  unfold websocket_endpoint, bind. rewrite listen_runs. simpl.
  repeat split; try done.
  - intros H. destruct (hangs_up incoming); [|done].
    by apply disconnect_unsubscribed in H.
  - intros ->. apply connect_subscribed.
  - destruct (hangs_up incoming).
    + rewrite disconnect_elsewhere by done. by rewrite connect_elsewhere.
    + by rewrite connect_elsewhere.
  - destruct (hangs_up incoming).
    + rewrite disconnect_elsewhere by done. by rewrite connect_elsewhere.
    + by rewrite connect_elsewhere.
Qed.

Lemma websocket_endpoint_lifecycle_witness :
  subscribed
    (connections (BottleApi.notify 5%positive 1 [Text "ping"; Text ""] Examples.world1).2)
    ["bottle"; "1"]%string 5%positive.
Proof.
  exact (proj2 (proj1 (proj2 (proj2 (proj2 (proj2 (proj2
           (websocket_endpoint_lifecycle ["bottle"; "1"]%string 5%positive
              [Text "ping"; Text ""] Examples.world1))))))) eq_refl).
Defined.

(** ** Consuming by length *)

(** X18.  [use_length] consumes nothing: for every bottle and length it raises
    [AttributeError] at the load of [models.models] in its first statement,
    before the resin is looked up and before any UPDATE, and the endpoint
    answers 500 with the world as it was. *)
Theorem use_length_raises (commit_on_exit : bool) (bottle_id : Z) (length : Q)
    (w : World) :
  BottleDb.use_length bottle_id length w = (Raise (AttributeError "models"), w)
  ∧ (session w = committed w →
     serve commit_on_exit
       (BottleApi.use bottle_id
          {| BottleApi.use_length := Some length; BottleApi.use_weight := None |}) w
     = (JSONResponse 500 "Internal Server Error", w)).
Proof.
  split; [reflexivity|]. intros Hs.
  assert (Hroll : (db_rollback w).2 = w).
  { simpl. apply set_session_id. by symmetry. }
  unfold serve. rewrite Hroll. unfold BottleApi.use. simpl.
  simpl in Hroll. by rewrite Hroll.
Qed.

Lemma use_length_raises_witness :
  serve true
    (BottleApi.use 1 {| BottleApi.use_length := Some 2.2%Q;
                        BottleApi.use_weight := None |}) Examples.world1
  = (JSONResponse 500 "Internal Server Error", Examples.world1).
Proof.
  exact (proj2 (use_length_raises true 1 2.2%Q Examples.world1) eq_refl).
Defined.

(** ** Searching for resins *)

(** X19.  [find] of resin.py returns no page and no count: for every filter,
    sort order, limit and offset it raises [AttributeError] at the load of
    [models.R] in its first statement, and leaves the world as it is. *)
Theorem resin_find_raises
    (parse_nested_field : string → res (ResinDb.Joined → ResinDb.Joined → comparison))
    (filters : list (ResinDb.Joined → bool))
    (sort_by : option (list (string * SortOrder))) (limit : option Z) (offset : Z)
    (w : World) :
  ResinDb.find parse_nested_field filters sort_by limit offset w
  = (Raise (AttributeError "R"), w)
  ∧ ∀ page total w',
      ResinDb.find parse_nested_field filters sort_by limit offset w
      ≠ (Ok (page, total), w').
Proof. split; [reflexivity|]. intros page total w'. discriminate. Qed.
